(** * SEO audit: the rule engine of [audit.py] and the metric cards of
      [seo_dashboard.py]

    The crawl export is a pandas [DataFrame].  A frame is modelled as the
    list of its rows, in index order; a row is a record with one field per
    column of the export.  Numeric columns are [float64] columns, so their
    cells are binary64 floats and the missing value is NaN, as in pandas;
    text columns are [object] columns whose cells are a string or missing;
    the timestamp column holds nanoseconds since the epoch or NaT.

    What is not modelled: the CSV and Excel encodings (what the dashboard
    reads back from the workbook is an input of its model, not derived
    from what the audit wrote), the content of the charts (the status
    counts, the histograms and the correlations feed charts only), the
    preview printed by [load_data] and the float average printed by
    [analyze_crawl_overview]. *)

From Stdlib Require Import List String Ascii Bool ZArith Lia Permutation Sorted.
From Stdlib Require Import Floats.
Import ListNotations.

Local Open Scope string_scope.
Local Open Scope list_scope.

(** ** Cells *)

Module Cell.

(** A text cell: [None] is the missing value ([NaN] in an object column). *)
Definition text := option string.

(** A timestamp cell: nanoseconds since the epoch, [None] is [NaT]. *)
Definition stamp := option Z.

(** [Series.isna] on a text cell. *)
Definition isna (c : text) : bool :=
  match c with
  | None => true
  | Some _ => false
  end.

(** Equality of two text cells as [duplicated] and [drop_duplicates] see
    it: two missing values are the same key. *)
Definition text_eqb (a b : text) : bool :=
  match a, b with
  | None, None => true
  | Some x, Some y => String.eqb x y
  | _, _ => false
  end.

(** [s == lit] on a text cell: a missing value equals no string. *)
Definition text_is (lit : string) (c : text) : bool :=
  match c with
  | None => false
  | Some s => String.eqb s lit
  end.

(** Substring test.  [Series.str.contains] takes a regular expression; the
    two patterns the audit uses, [text/html] and [Non-Indexable], have no
    metacharacter, so they match as plain substrings. *)
Fixpoint contains (pat s : string) : bool :=
  String.prefix pat s ||
  match s with
  | EmptyString => false
  | String _ rest => contains pat rest
  end.

(** [Series.str.contains(pat, na=False)]. *)
Definition str_contains (pat : string) (c : text) : bool :=
  match c with
  | None => false
  | Some s => contains pat s
  end.

(** [Series.between(lo, hi)], inclusive at both ends. *)
Definition between (lo hi x : float) : bool :=
  (PrimFloat.leb lo x && PrimFloat.leb x hi)%bool.

(** [fillna] with a scalar on a numeric cell. *)
Definition fillna (d x : float) : float :=
  if PrimFloat.is_nan x then d else x.

(** [stamp < cutoff]: a comparison with [NaT] is false. *)
Definition stamp_lt (c : stamp) (cutoff : Z) : bool :=
  match c with
  | None => false
  | Some t => (t <? cutoff)%Z
  end.

(** A cell of a projected table. *)
Inductive cell : Type :=
| Num (f : float)
| Text (s : text)
| Stamp (t : stamp).

End Cell.

Import Cell.

(** ** Frame operations *)

Module Frame.

Section Generic.

Context {A K : Type}.
Variable key : A -> K.
Variable eqb : K -> K -> bool.

(** Membership of a key in the keys already seen. *)
Definition seen_in (k : K) (seen : list K) : bool :=
  existsb (eqb k) seen.

(** [drop_duplicates(subset=[key])] with the default [keep='first']: rows
    are visited in order and a row is kept unless its key was seen. *)
Fixpoint drop_duplicates_from (seen : list K) (rows : list A) : list A :=
  match rows with
  | [] => []
  | r :: rest =>
      if seen_in (key r) seen
      then drop_duplicates_from seen rest
      else r :: drop_duplicates_from (key r :: seen) rest
  end.

Definition drop_duplicates (rows : list A) : list A :=
  drop_duplicates_from [] rows.

(** Number of rows carrying the key [k]. *)
Definition occurrences (k : K) (rows : list A) : nat :=
  List.length (filter (fun r => eqb (key r) k) rows).

(** [df[df.duplicated(subset=[key], keep=False)]]: every row whose key
    occurs more than once in the frame. *)
Definition duplicated_all (rows : list A) : list A :=
  filter (fun r => (1 <? occurrences (key r) rows)%nat) rows.

End Generic.

(** Insertion of [x] into a list sorted by [le], before the first element
    it precedes or ties with. *)
Fixpoint insert_by {A : Type} (le : A -> A -> bool) (x : A) (l : list A) : list A :=
  match l with
  | [] => [x]
  | y :: rest => if le x y then x :: y :: rest else y :: insert_by le x rest
  end.

(** Sorting by a total preorder given as a boolean test.  pandas sorts with
    numpy's quicksort, which fixes no order among rows with equal keys; the
    model keeps them in frame order. *)
Fixpoint sort_by {A : Type} (le : A -> A -> bool) (l : list A) : list A :=
  match l with
  | [] => []
  | x :: rest => insert_by le x (sort_by le rest)
  end.

(** The order [sort_values] puts two numeric keys in: missing values come
    last whatever the direction ([na_position='last']). *)
Definition key_le (ascending : bool) (x y : float) : bool :=
  if PrimFloat.is_nan y then true
  else if PrimFloat.is_nan x then false
  else if ascending then PrimFloat.leb x y else PrimFloat.leb y x.

(** [df.groupby(key)[val].apply(list)]: rows with a missing key are left
    out, the groups come in the order of their keys, and each group lists
    the values of its rows in frame order. *)
Definition groupby_list {A V : Type} (key : A -> text) (val : A -> V)
    (rows : list A) : list (string * list V) :=
  let keys :=
    flat_map (fun r => match key r with Some k => [k] | None => [] end) rows in
  map (fun k => (k, map val (filter (fun r => text_is k (key r)) rows)))
      (sort_by String.leb (drop_duplicates (fun k => k) String.eqb keys)).

End Frame.

(** ** The column contract of the crawl export *)

Module Col.

(** The columns the audit reads, under their names after
    [df.columns.str.lower().str.strip()]. *)
Inductive column : Type :=
| address | status_code | content_type | response_time
| indexability | indexability_status | canonical_link_element_1
| title_1 | title_1_length | meta_description_1 | meta_description_1_length
| word_count | flesch_reading_ease_score
| no_near_duplicates | closest_similarity_match
| crawl_depth | inlinks | outlinks | link_score
| size_bytes | last_modified | http_version.

Definition name (c : column) : string :=
  match c with
  | address => "address"
  | status_code => "status code"
  | content_type => "content type"
  | response_time => "response time"
  | indexability => "indexability"
  | indexability_status => "indexability status"
  | canonical_link_element_1 => "canonical link element 1"
  | title_1 => "title 1"
  | title_1_length => "title 1 length"
  | meta_description_1 => "meta description 1"
  | meta_description_1_length => "meta description 1 length"
  | word_count => "word count"
  | flesch_reading_ease_score => "flesch reading ease score"
  | no_near_duplicates => "no. near duplicates"
  | closest_similarity_match => "closest similarity match"
  | crawl_depth => "crawl depth"
  | inlinks => "inlinks"
  | outlinks => "outlinks"
  | link_score => "link score"
  | size_bytes => "size (bytes)"
  | last_modified => "last modified"
  | http_version => "http version"
  end.

Definition eq_dec (a b : column) : {a = b} + {a <> b}.
Proof. decide equality. Defined.

Definition all : list column :=
  [address; status_code; content_type; response_time;
   indexability; indexability_status; canonical_link_element_1;
   title_1; title_1_length; meta_description_1; meta_description_1_length;
   word_count; flesch_reading_ease_score;
   no_near_duplicates; closest_similarity_match;
   crawl_depth; inlinks; outlinks; link_score;
   size_bytes; last_modified; http_version].

End Col.

(** ** Tables: what a projection [df[[c1, ..., cn]]] leaves of a frame *)

Module Table.

Record t : Type := mk {
  header : list Col.column;
  body : list (list cell)
}.

(** [len(table)]. *)
Definition len (tb : t) : nat := List.length (body tb).

(** Position of a column in a header. *)
Fixpoint position (c : Col.column) (hdr : list Col.column) : option nat :=
  match hdr with
  | [] => None
  | h :: rest =>
      if Col.eq_dec h c then Some 0
      else option_map S (position c rest)
  end.

(** The numeric cell of a line under column [c]; NaN where the line has no
    number there. *)
Definition number_at (c : Col.column) (hdr : list Col.column)
    (line : list cell) : float :=
  match position c hdr with
  | Some i =>
      match nth_error line i with
      | Some (Num f) => f
      | _ => PrimFloat.nan
      end
  | None => PrimFloat.nan
  end.

(** [table.sort_values(by, ascending=asc)] on a numeric column. *)
Definition sort_values (by_ : Col.column) (asc : bool) (tb : t) : t :=
  {| header := header tb;
     body := Frame.sort_by
               (fun a b => Frame.key_le asc (number_at by_ (header tb) a)
                                           (number_at by_ (header tb) b))
               (body tb) |}.

(** [table.head(n)]. *)
Definition head (n : nat) (tb : t) : t :=
  {| header := header tb; body := firstn n (body tb) |}.

End Table.

(** ** audit.py *)

Module Audit.

Set Implicit Arguments.

(** A row of the export.  [S] is what the status-code column holds and [T]
    what the last-modified column holds: they change type in [clean_data]. *)
Record Row_ (S T : Type) : Type := mkRow {
  address : text;
  status_code : S;
  content_type : text;
  response_time : float;
  indexability : text;
  indexability_status : text;
  canonical_link_element_1 : text;
  title_1 : text;
  title_1_length : float;
  meta_description_1 : text;
  meta_description_1_length : float;
  word_count : float;
  flesch_reading_ease_score : float;
  no_near_duplicates : float;
  closest_similarity_match : float;
  crawl_depth : float;
  inlinks : float;
  outlinks : float;
  link_score : float;
  size_bytes : float;
  last_modified : T;
  http_version : text
}.

Unset Implicit Arguments.

(** A status code as [read_csv] hands it over: a number (NaN when the
    field is empty), or the text of a field that is not a number. *)
Inductive raw_number : Type :=
| RawNum (f : float)
| RawStr (s : string).

(** A row as loaded, and a row after [clean_data]. *)
Definition RawRow : Type := Row_ raw_number text.
Definition Row : Type := Row_ float stamp.

(** A frame is the list of its rows. *)
Definition RawFrame : Type := list RawRow.
Definition DataFrame : Type := list Row.

(** The cell of a cleaned row under a column. *)
Definition cell_of (c : Col.column) (r : Row) : cell :=
  match c with
  | Col.address => Text (address r)
  | Col.status_code => Num (status_code r)
  | Col.content_type => Text (content_type r)
  | Col.response_time => Num (response_time r)
  | Col.indexability => Text (indexability r)
  | Col.indexability_status => Text (indexability_status r)
  | Col.canonical_link_element_1 => Text (canonical_link_element_1 r)
  | Col.title_1 => Text (title_1 r)
  | Col.title_1_length => Num (title_1_length r)
  | Col.meta_description_1 => Text (meta_description_1 r)
  | Col.meta_description_1_length => Num (meta_description_1_length r)
  | Col.word_count => Num (word_count r)
  | Col.flesch_reading_ease_score => Num (flesch_reading_ease_score r)
  | Col.no_near_duplicates => Num (no_near_duplicates r)
  | Col.closest_similarity_match => Num (closest_similarity_match r)
  | Col.crawl_depth => Num (crawl_depth r)
  | Col.inlinks => Num (inlinks r)
  | Col.outlinks => Num (outlinks r)
  | Col.link_score => Num (link_score r)
  | Col.size_bytes => Num (size_bytes r)
  | Col.last_modified => Stamp (last_modified r)
  | Col.http_version => Text (http_version r)
  end.

(** The line a row contributes to a projection. *)
Definition line_of (cols : list Col.column) (r : Row) : list cell :=
  map (fun c => cell_of c r) cols.

(** [df[mask]]: boolean indexing. *)
Definition select (mask : Row -> bool) (df : DataFrame) : DataFrame :=
  filter mask df.

(** [df[[c1, ..., cn]]]: projection. *)
Definition project (cols : list Col.column) (df : DataFrame) : Table.t :=
  {| Table.header := cols; Table.body := map (line_of cols) df |}.

(** What a run does to its surroundings, in order. *)
Inductive event : Type :=
| Say (line : string)                          (* print(line) *)
| Count (label : string) (n : nat)             (* print(f'{label}: {n}') *)
| MakeDirs (path : string)                     (* os.makedirs unless there *)
| ToCsv (path : string) (tb : Table.t)
| ToExcel (path : string) (tb : Table.t)
| GroupsToCsv (path : string) (groups : list (string * list text))
| SaveFig (path : string)                      (* plt.savefig, fig.write_html *)
| ExcelWriter (path : string) (sheets : list (string * Table.t)).

(** *** The masks of the rule catalog, as the source writes them *)

Definition is_html (r : Row) : bool :=
  str_contains "text/html" (content_type r).

Definition is_4xx (r : Row) : bool :=
  between 400 499 (status_code r).

Definition is_slow (r : Row) : bool :=
  PrimFloat.ltb 0.5 (response_time r).

Definition is_non_indexable (r : Row) : bool :=
  str_contains "Non-Indexable" (indexability_status r).

Definition is_missing_canonical (r : Row) : bool :=
  isna (canonical_link_element_1 r).

Definition is_suboptimal_title (r : Row) : bool :=
  PrimFloat.ltb (title_1_length r) 50 || PrimFloat.ltb 60 (title_1_length r).

Definition is_suboptimal_meta (r : Row) : bool :=
  PrimFloat.ltb (meta_description_1_length r) 150
  || PrimFloat.ltb 160 (meta_description_1_length r).

Definition is_thin (r : Row) : bool :=
  PrimFloat.ltb (word_count r) 300.

Definition is_low_readability (r : Row) : bool :=
  PrimFloat.ltb (flesch_reading_ease_score r) 60.

Definition is_near_duplicate (r : Row) : bool :=
  PrimFloat.ltb 0 (no_near_duplicates r).

Definition is_deep (r : Row) : bool :=
  PrimFloat.ltb 3 (crawl_depth r).

Definition is_low_inlinks (r : Row) : bool :=
  PrimFloat.ltb (inlinks r) 5.

Definition is_large (r : Row) : bool :=
  PrimFloat.ltb 100000 (size_bytes r).

(** [pd.Timedelta(days=365)] in nanoseconds. *)
Definition one_year : Z := 365 * 86400 * 1000000000.

(** [now] is the reading of [datetime.now()]. *)
Definition is_outdated (now : Z) (r : Row) : bool :=
  stamp_lt (last_modified r) (now - one_year).

(** The [http version] column is taken to be a text column.  An export
    whose column holds numbers only is read as a float column, in which
    no cell equals the string. *)
Definition is_http_1_1 (r : Row) : bool :=
  text_is "1.1" (http_version r).

(** *** [clean_data] *)

Section Pipeline.

(** What [pd.to_numeric] makes of a field that is text (NaN when it is not
    a number) and what [pd.to_datetime] makes of a date text ([NaT] when it
    is not a date): both with [errors='coerce'].  [pd.to_datetime] settles
    on a format for the column as a whole; [parse_datetime] is then what
    that conversion makes of each text of the column at hand, which is why
    it is left open and nothing below depends on which texts it accepts.
    Timestamps are naive: a column with time zones, which the comparison
    with [datetime.now()] refuses, is outside the model. *)
Variable parse_numeric : string -> float.
Variable parse_datetime : string -> stamp.

Definition to_numeric (c : raw_number) : float :=
  match c with
  | RawNum f => f
  | RawStr s => parse_numeric s
  end.

Definition to_datetime (c : text) : stamp :=
  match c with
  | None => None
  | Some s => parse_datetime s
  end.

(** The column assignments of [clean_data], row by row: [fillna] on the
    two length columns, then the two coercions. *)
Definition clean_row (r : RawRow) : Row :=
  {| address := address r;
     status_code := to_numeric (status_code r);
     content_type := content_type r;
     response_time := response_time r;
     indexability := indexability r;
     indexability_status := indexability_status r;
     canonical_link_element_1 := canonical_link_element_1 r;
     title_1 := title_1 r;
     title_1_length := fillna 0 (title_1_length r);
     meta_description_1 := meta_description_1 r;
     meta_description_1_length := fillna 0 (meta_description_1_length r);
     word_count := word_count r;
     flesch_reading_ease_score := flesch_reading_ease_score r;
     no_near_duplicates := no_near_duplicates r;
     closest_similarity_match := closest_similarity_match r;
     crawl_depth := crawl_depth r;
     inlinks := inlinks r;
     outlinks := outlinks r;
     link_score := link_score r;
     size_bytes := size_bytes r;
     last_modified := to_datetime (last_modified r);
     http_version := http_version r |}.

(** [html_df] is taken from the frame as it stands before
    [drop_duplicates] runs, as in the source. *)
Definition clean_data (raw : RawFrame) : list event * (DataFrame * DataFrame) :=
  let df := map clean_row raw in
  let html_df := select is_html df in
  let df := Frame.drop_duplicates (@address _ _) text_eqb df in
  ([MakeDirs "reports";
    ToCsv "reports/cleaned_data.csv" (project Col.all df);
    Say "Data cleaned and saved to reports/cleaned_data.csv"],
   (df, html_df)).

End Pipeline.

(** *** The per-rule artifacts *)

Definition slow_pages (df : DataFrame) : Table.t :=
  project [Col.address; Col.response_time; Col.status_code] (select is_slow df).

Definition analyze_crawl_overview (df : DataFrame) : list event :=
  let total_urls := List.length df in
  [Count "Total URLs" total_urls;
   SaveFig "reports/status_codes.png";
   ToExcel "reports/slow_pages.xlsx" (slow_pages df);
   Count "Slow Pages (>0.5s)" (Table.len (slow_pages df))].

Definition non_index (df : DataFrame) : DataFrame :=
  select is_non_indexable df.

Definition missing_canonical (df : DataFrame) : Table.t :=
  project [Col.address; Col.indexability] (select is_missing_canonical df).

Definition analyze_indexability (df : DataFrame) : list event :=
  [Count "Non-Indexable Pages" (List.length (non_index df));
   ToExcel "reports/non_indexable.xlsx"
     (project [Col.address; Col.indexability_status] (non_index df));
   Count "Pages Missing Canonical" (Table.len (missing_canonical df));
   ToExcel "reports/missing_canonical.xlsx" (missing_canonical df);
   SaveFig "reports/indexability.png"].

Definition suboptimal_titles (df : DataFrame) : DataFrame :=
  select is_suboptimal_title df.

Definition suboptimal_metas (df : DataFrame) : DataFrame :=
  select is_suboptimal_meta df.

Definition dup_titles (df : DataFrame) : list (string * list text) :=
  Frame.groupby_list (@title_1 _ _) (@address _ _)
    (Frame.duplicated_all (@title_1 _ _) text_eqb df).

Definition analyze_onpage_seo (df : DataFrame) : list event :=
  [Count "Suboptimal Title Lengths (<50 or >60)" (List.length (suboptimal_titles df));
   ToExcel "reports/suboptimal_titles.xlsx"
     (project [Col.address; Col.title_1; Col.title_1_length] (suboptimal_titles df));
   Count "Suboptimal Meta Descriptions (<150 or >160)" (List.length (suboptimal_metas df));
   ToExcel "reports/suboptimal_metas.xlsx"
     (project [Col.address; Col.meta_description_1; Col.meta_description_1_length]
        (suboptimal_metas df));
   GroupsToCsv "reports/duplicate_titles.csv" (dup_titles df);
   Count "Duplicate Titles Found" (List.length (dup_titles df));
   SaveFig "reports/title_lengths.html"].

Definition thin_pages (df : DataFrame) : Table.t :=
  project [Col.address; Col.word_count; Col.flesch_reading_ease_score]
    (select is_thin df).

Definition low_readability (df : DataFrame) : Table.t :=
  project [Col.address; Col.flesch_reading_ease_score] (select is_low_readability df).

Definition near_dups (df : DataFrame) : Table.t :=
  Table.sort_values Col.closest_similarity_match false
    (project [Col.address; Col.closest_similarity_match] (select is_near_duplicate df)).

Definition analyze_content_quality (df : DataFrame) : list event :=
  [Count "Thin Content Pages (<300 words)" (Table.len (thin_pages df));
   ToExcel "reports/thin_pages.xlsx" (thin_pages df);
   Count "Low Readability Pages (<60)" (Table.len (low_readability df));
   ToExcel "reports/low_readability.xlsx" (low_readability df);
   Count "Near Duplicate Pages" (Table.len (near_dups df));
   ToExcel "reports/near_duplicates.xlsx" (near_dups df);
   SaveFig "reports/content_quality.png"].

Definition deep_pages (df : DataFrame) : Table.t :=
  project [Col.address; Col.crawl_depth; Col.inlinks] (select is_deep df).

Definition low_inlinks (df : DataFrame) : Table.t :=
  Table.sort_values Col.link_score true
    (project [Col.address; Col.inlinks; Col.link_score] (select is_low_inlinks df)).

Definition analyze_site_architecture (df : DataFrame) : list event :=
  [Count "Deep Pages (>3)" (Table.len (deep_pages df));
   ToExcel "reports/deep_pages.xlsx" (deep_pages df);
   Count "Pages with Low Inlinks (<5)" (Table.len (low_inlinks df));
   ToExcel "reports/low_inlinks.xlsx" (low_inlinks df);
   SaveFig "reports/link_correlations.png"].

Definition large_pages (df : DataFrame) : Table.t :=
  project [Col.address; Col.size_bytes; Col.content_type] (select is_large df).

Definition outdated (now : Z) (df : DataFrame) : Table.t :=
  project [Col.address; Col.last_modified] (select (is_outdated now) df).

Definition old_http (df : DataFrame) : Table.t :=
  project [Col.address; Col.http_version] (select is_http_1_1 df).

Definition analyze_performance (now : Z) (df : DataFrame) : list event :=
  [Count "Large Pages (>100KB)" (Table.len (large_pages df));
   ToExcel "reports/large_pages.xlsx" (large_pages df);
   Count "Outdated Pages (>1 year)" (Table.len (outdated now df));
   ToExcel "reports/outdated_pages.xlsx" (outdated now df);
   Count "HTTP 1.1 Pages" (Table.len (old_http df));
   ToExcel "reports/old_http_pages.xlsx" (old_http df);
   SaveFig "reports/page_size.png"].

(** *** [generate_report]: the sheets of [reports/audit_report.xlsx] *)

Definition report_sheets (now : Z) (df html_df : DataFrame)
    : list (string * Table.t) :=
  [("HTML Pages",
    project [Col.address; Col.status_code; Col.title_1; Col.meta_description_1;
             Col.word_count] html_df);
   ("4xx Errors",
    project [Col.address; Col.status_code] (select is_4xx df));
   ("Slow Pages",
    project [Col.address; Col.response_time] (select is_slow df));
   ("Missing Canonical",
    project [Col.address; Col.indexability] (select is_missing_canonical df));
   ("Suboptimal Titles",
    project [Col.address; Col.title_1; Col.title_1_length]
      (select is_suboptimal_title df));
   ("Suboptimal Metas",
    project [Col.address; Col.meta_description_1; Col.meta_description_1_length]
      (select is_suboptimal_meta df));
   ("Thin Content",
    project [Col.address; Col.word_count] (select is_thin df));
   ("Low Readability",
    project [Col.address; Col.flesch_reading_ease_score]
      (select is_low_readability df));
   ("Near Duplicates",
    project [Col.address; Col.closest_similarity_match]
      (select is_near_duplicate df));
   ("Deep Pages",
    project [Col.address; Col.crawl_depth] (select is_deep df));
   ("Low Inlinks",
    project [Col.address; Col.inlinks; Col.link_score] (select is_low_inlinks df));
   ("Large Pages",
    project [Col.address; Col.size_bytes] (select is_large df));
   ("Outdated Pages",
    project [Col.address; Col.last_modified] (select (is_outdated now) df));
   ("HTTP 1.1 Pages",
    project [Col.address; Col.http_version] (select is_http_1_1 df))].

Definition generate_report (now : Z) (df html_df : DataFrame) : list event :=
  [ExcelWriter "reports/audit_report.xlsx" (report_sheets now df html_df);
   Say "SEO Audit Complete. Reports saved to reports/audit_report.xlsx"].

(** The sheet of a workbook under a name. *)
Fixpoint sheet (name : string) (sheets : list (string * Table.t))
    : option Table.t :=
  match sheets with
  | [] => None
  | (n, tb) :: rest => if String.eqb n name then Some tb else sheet name rest
  end.

(** *** [load_data] and the main block *)

(** The storage the run reads from: the crawl export under a path, if any. *)
Definition storage : Type := string -> option RawFrame.

Definition load_data (fs : storage) (file_path : string)
    : list event * option RawFrame :=
  match fs file_path with
  | Some df => ([], Some df)
  | None => ([Say ("Error: " ++ file_path ++ " not found.")], None)
  end.

(** How a run ends: what it did, and the message of [SystemExit] if it was
    raised. *)
Record outcome : Type := mkOutcome {
  trace : list event;
  exit_message : option string
}.

Definition file_path : string := "data/raw/internal_all_02.csv".

Section Main.

Variable parse_numeric : string -> float.
Variable parse_datetime : string -> stamp.

(** [now_perf] and [now_report] are the two readings of [datetime.now()],
    one in [analyze_performance] and one in [generate_report].

    The statements run in the order of the main block and none of them is
    taken to raise.  The script does raise on some exports the row type
    admits: [.str] on a text column whose cells are all missing, the bar
    chart of an empty frame, the box plot of a frame without a single
    size.  On such an export the script stops at that statement and what
    [main] lists after it is not written; what is stated below about a
    whole run holds of the runs that reach their end. *)
Definition main (fs : storage) (now_perf now_report : Z) : outcome :=
  let '(loaded, df) := load_data fs file_path in
  match df with
  | None =>
      {| trace := loaded; exit_message := Some "Exiting due to file error." |}
  | Some df =>
      let '(cleaned, (df, html_df)) :=
        clean_data parse_numeric parse_datetime df in
      {| trace :=
           loaded ++ cleaned
           ++ analyze_crawl_overview df
           ++ analyze_indexability df
           ++ analyze_onpage_seo html_df
           ++ analyze_content_quality html_df
           ++ analyze_site_architecture df
           ++ analyze_performance now_perf df
           ++ generate_report now_report df html_df;
         exit_message := None |}
  end.

End Main.

(** The files a trace leaves behind. *)
Definition writes (e : event) : bool :=
  match e with
  | Say _ | Count _ _ => false
  | _ => true
  end.

(** The workbook a trace wrote under [path], if it wrote one; the last one
    written wins. *)
Fixpoint workbook (path : string) (tr : list event)
    : option (list (string * Table.t)) :=
  match tr with
  | [] => None
  | e :: rest =>
      match workbook path rest with
      | Some w => Some w
      | None =>
          match e with
          | ExcelWriter p sheets => if String.eqb p path then Some sheets else None
          | _ => None
          end
      end
  end.

(** The count a trace printed under a label, if it printed one. *)
Fixpoint printed_count (label : string) (tr : list event) : option nat :=
  match tr with
  | [] => None
  | Count l n :: rest => if String.eqb l label then Some n else printed_count label rest
  | _ :: rest => printed_count label rest
  end.

End Audit.

(** ** seo_dashboard.py *)

Module Dashboard.

Definition audit_file : string := "reports/audit_report.xlsx".

(** The keys of the [data] dictionary and the sheet each one is read from. *)
Definition data_keys : list (string * string) :=
  [("html_pages", "HTML Pages");
   ("4xx_errors", "4xx Errors");
   ("slow_pages", "Slow Pages");
   ("missing_canonical", "Missing Canonical");
   ("suboptimal_titles", "Suboptimal Titles");
   ("suboptimal_metas", "Suboptimal Metas");
   ("thin_pages", "Thin Content");
   ("low_readability", "Low Readability");
   ("near_duplicates", "Near Duplicates");
   ("deep_pages", "Deep Pages");
   ("low_inlinks", "Low Inlinks");
   ("large_pages", "Large Pages");
   ("outdated_pages", "Outdated Pages");
   ("http_1_pages", "HTTP 1.1 Pages")].

(** What [pd.read_excel(audit_file, sheet_name=name)] gives for each sheet
    name: the table it returns, or [None] when the call raises (no such
    sheet, a file that is not a workbook, ...).  The table is the one
    pandas hands back, which need not be line for line the table that was
    written. *)
Definition excel_reader : Type := string -> option Table.t.

(** The [try] block of [load_audit_data]: the sheets are read one after
    the other and the first call that raises ends the block in the
    [except] branch, which returns [None]. *)
Fixpoint read_sheets (read_excel : excel_reader)
    (keys : list (string * string)) : option (list (string * Table.t)) :=
  match keys with
  | [] => Some []
  | (k, name) :: rest =>
      match read_excel name with
      | None => None
      | Some tb =>
          match read_sheets read_excel rest with
          | None => None
          | Some d => Some ((k, tb) :: d)
          end
      end
  end.

(** [file] is [None] when [os.path.exists(audit_file)] is false. *)
Definition load_audit_data (file : option excel_reader)
    : option (list (string * Table.t)) :=
  match file with
  | None => None
  | Some read_excel => read_sheets read_excel data_keys
  end.

(** The export as [load_csv_data] finds it: not there, there but
    [read_csv] or the renaming of the columns raises, or read, with the
    column names it has after [str.lower().str.strip()]. *)
Inductive csv_file : Type :=
| NoCsv
| CsvRaises
| Csv (columns : list string).

Definition has_column (name : string) (columns : list string) : bool :=
  existsb (String.eqb name) columns.

(** [load_csv_data] returns the frame only when both length columns are
    among its columns; the model keeps the column names of the frame. *)
Definition load_csv_data (file : csv_file) : option (list string) :=
  match file with
  | NoCsv => None
  | CsvRaises => None
  | Csv columns =>
      if negb (has_column "title 1 length" columns)
         || negb (has_column "meta description 1 length" columns)
      then None
      else Some columns
  end.

(** [data[k]].  Every key the layout asks for is one of [data_keys], so the
    empty table is never what the lookup returns on loaded data. *)
Definition item (d : list (string * Table.t)) (k : string) : Table.t :=
  match Audit.sheet k d with
  | Some tb => tb
  | None => {| Table.header := []; Table.body := [] |}
  end.

(** A metric card; the page shows [str(value)]. *)
Record card : Type := create_metric_card {
  card_title : string;
  card_value : nat;
  card_color : string
}.

(** [create_data_table(df, table_id)] with [max_rows=10]. *)
Record data_table : Type := mkDataTable {
  table_id : string;
  table_data : Table.t
}.

Definition create_data_table (df : Table.t) (id : string) : data_table :=
  {| table_id := id; table_data := Table.head 10 df |}.

(** What a section shows beside its table. *)
Inductive figure : Type :=
| Img (path : string)
| Histograms (columns : list Col.column).

Record section : Type := mkSection {
  section_title : string;
  cards : list card;
  picture : figure;
  preview : data_table
}.

Inductive layout : Type :=
| MissingDataFiles
| Sections (l : list section).

Definition app_layout (audit : option excel_reader) (csv : csv_file)
    : layout :=
  match load_audit_data audit, load_csv_data csv with
  | Some data, Some _ =>
      Sections
        [ {| section_title := "Crawl Overview";
             cards :=
               [create_metric_card "Total URLs" (Table.len (item data "html_pages")) "info";
                create_metric_card "4xx Errors" (Table.len (item data "4xx_errors")) "danger";
                create_metric_card "Slow Pages (>0.5s)" (Table.len (item data "slow_pages")) "warning"];
             picture := Img "reports/status_codes.png";
             preview := create_data_table (item data "4xx_errors") "table-4xx" |};
          {| section_title := "Indexability";
             cards :=
               [create_metric_card "Non-Indexable Pages" (Table.len (item data "missing_canonical")) "danger";
                create_metric_card "Missing Canonical" (Table.len (item data "missing_canonical")) "warning"];
             picture := Img "reports/indexability.png";
             preview := create_data_table (item data "missing_canonical") "table-canonical" |};
          {| section_title := "On-Page SEO";
             cards :=
               [create_metric_card "Suboptimal Titles" (Table.len (item data "suboptimal_titles")) "warning";
                create_metric_card "Suboptimal Metas" (Table.len (item data "suboptimal_metas")) "warning"];
             picture := Histograms [Col.title_1_length; Col.meta_description_1_length];
             preview := create_data_table (item data "suboptimal_titles") "table-titles" |};
          {| section_title := "Content Quality";
             cards :=
               [create_metric_card "Thin Content Pages" (Table.len (item data "thin_pages")) "warning";
                create_metric_card "Low Readability Pages" (Table.len (item data "low_readability")) "warning";
                create_metric_card "Near Duplicates" (Table.len (item data "near_duplicates")) "danger"];
             picture := Img "reports/content_quality.png";
             preview := create_data_table (item data "thin_pages") "table-thin" |};
          {| section_title := "Site Architecture";
             cards :=
               [create_metric_card "Deep Pages (>3)" (Table.len (item data "deep_pages")) "warning";
                create_metric_card "Low Inlinks (<5)" (Table.len (item data "low_inlinks")) "warning"];
             picture := Img "reports/link_correlations.png";
             preview := create_data_table (item data "deep_pages") "table-deep" |};
          {| section_title := "Performance";
             cards :=
               [create_metric_card "Large Pages (>100KB)" (Table.len (item data "large_pages")) "warning";
                create_metric_card "Outdated Pages (>1yr)" (Table.len (item data "outdated_pages")) "warning";
                create_metric_card "HTTP 1.1 Pages" (Table.len (item data "http_1_pages")) "warning"];
             picture := Img "reports/page_size.png";
             preview := create_data_table (item data "large_pages") "table-large" |} ]
  | _, _ => MissingDataFiles
  end.

(** The value a layout shows on the card with a given title. *)
Definition all_cards (l : layout) : list card :=
  match l with
  | MissingDataFiles => []
  | Sections ss => flat_map cards ss
  end.

Definition shown (title : string) (l : layout) : option nat :=
  option_map card_value
    (find (fun c => String.eqb (card_title c) title) (all_cards l)).

(** *** The callback of the collapsible sections *)

(** The [is_open] flags of the six sections, in the order the callback
    takes and returns them. *)
Record collapse_state : Type := mkCollapse {
  crawl_state : bool;
  index_state : bool;
  onpage_state : bool;
  content_state : bool;
  arch_state : bool;
  perf_state : bool
}.

(** [s.split('.')[0]]: the text before the first dot. *)
Fixpoint before_dot (s : string) : string :=
  match s with
  | EmptyString => EmptyString
  | String c rest =>
      if Ascii.eqb c "."%char then EmptyString else String c (before_dot rest)
  end.

(** [triggered] lists the [prop_id] of the inputs that fired, as
    [dash.callback_context.triggered] does; the click counts the callback
    also receives are not read by its body. *)
Definition toggle_collapse (triggered : list string) (st : collapse_state)
    : collapse_state :=
  match triggered with
  | [] => st
  | prop_id :: _ =>
      let button_id := before_dot prop_id in
      if String.eqb button_id "crawl-header" then
        mkCollapse (negb (crawl_state st)) (index_state st) (onpage_state st)
                   (content_state st) (arch_state st) (perf_state st)
      else if String.eqb button_id "indexability-header" then
        mkCollapse (crawl_state st) (negb (index_state st)) (onpage_state st)
                   (content_state st) (arch_state st) (perf_state st)
      else if String.eqb button_id "onpage-header" then
        mkCollapse (crawl_state st) (index_state st) (negb (onpage_state st))
                   (content_state st) (arch_state st) (perf_state st)
      else if String.eqb button_id "content-header" then
        mkCollapse (crawl_state st) (index_state st) (onpage_state st)
                   (negb (content_state st)) (arch_state st) (perf_state st)
      else if String.eqb button_id "architecture-header" then
        mkCollapse (crawl_state st) (index_state st) (onpage_state st)
                   (content_state st) (negb (arch_state st)) (perf_state st)
      else if String.eqb button_id "performance-header" then
        mkCollapse (crawl_state st) (index_state st) (onpage_state st)
                   (content_state st) (arch_state st) (negb (perf_state st))
      else st
  end.

End Dashboard.

(** ** What the statements below observe of a run *)

Module Observe.

Import Audit.

(** Every line of the table is the projection of a row of the frame. *)
Definition from_rows (tb : Table.t) (part : DataFrame) : Prop :=
  forall line, In line (Table.body tb) ->
    exists r, In r part /\ line = line_of (Table.header tb) r.

(** No two rows of the frame carry the same address. *)
Definition unique_addresses {S T : Type} (df : list (Row_ S T)) : Prop :=
  NoDup (map (@address S T) df).

(** The first row of a frame with a given address. *)
Definition first_with {S T : Type} (a : text) (df : list (Row_ S T))
    : option (Row_ S T) :=
  find (fun r => text_eqb (address r) a) df.

(** A workbook without one of its sheets. *)
Definition without_sheet (name : string) (sheets : list (string * Table.t))
    : list (string * Table.t) :=
  filter (fun p => negb (String.eqb (fst p) name)) sheets.

(** An event with what it says about outdated pages taken out: the count
    line and the artifact of the rule go, the workbook loses the sheet. *)
Definition apart_from_outdated (e : event) : list event :=
  match e with
  | Count l n =>
      if String.eqb l "Outdated Pages (>1 year)" then [] else [e]
  | ToExcel p tb =>
      if String.eqb p "reports/outdated_pages.xlsx" then [] else [e]
  | ExcelWriter p sheets =>
      [ExcelWriter p (without_sheet "Outdated Pages" sheets)]
  | _ => [e]
  end.

(** The frame and the HTML frame [clean_data] returns. *)
Definition cleaned_df (pn : string -> float) (pd : string -> stamp)
    (raw : RawFrame) : DataFrame :=
  fst (snd (clean_data pn pd raw)).

Definition cleaned_html_df (pn : string -> float) (pd : string -> stamp)
    (raw : RawFrame) : DataFrame :=
  snd (snd (clean_data pn pd raw)).

(** A row with its indexability status rewritten by [f] and every other
    cell untouched. *)
Definition with_indexability_status {S T : Type} (f : text -> text)
    (r : Row_ S T) : Row_ S T :=
  {| address := address r;
     status_code := status_code r;
     content_type := content_type r;
     response_time := response_time r;
     indexability := indexability r;
     indexability_status := f (indexability_status r);
     canonical_link_element_1 := canonical_link_element_1 r;
     title_1 := title_1 r;
     title_1_length := title_1_length r;
     meta_description_1 := meta_description_1 r;
     meta_description_1_length := meta_description_1_length r;
     word_count := word_count r;
     flesch_reading_ease_score := flesch_reading_ease_score r;
     no_near_duplicates := no_near_duplicates r;
     closest_similarity_match := closest_similarity_match r;
     crawl_depth := crawl_depth r;
     inlinks := inlinks r;
     outlinks := outlinks r;
     link_score := link_score r;
     size_bytes := size_bytes r;
     last_modified := last_modified r;
     http_version := http_version r |}.

(** The order [sort_values] leaves two numeric keys in, read as a
    relation: the second key is missing, or neither is and the two compare
    in the direction of the sort. *)
Definition in_order (asc : bool) (x y : float) : Prop :=
  PrimFloat.is_nan y = true \/
  (PrimFloat.is_nan x = false /\ PrimFloat.is_nan y = false /\
   if asc then PrimFloat.leb x y = true else PrimFloat.leb y x = true).

(** The rows of a frame carrying a given title. *)
Definition titled (t : string) (df : DataFrame) : DataFrame :=
  filter (fun r => text_is t (title_1 r)) df.

(** The float a whole number of characters is stored as. *)
Definition chars (n : Z) : float :=
  PrimFloat.of_uint63 (Uint63.of_Z n).

(** The whole numbers from 0 up to [n], excluded. *)
Definition upto (n : Z) : list Z :=
  map Z.of_nat (seq 0 (Z.to_nat n)).

End Observe.

(** ** Concrete crawls *)

Module Examples.

Import Audit.

#[local] Set Warnings "-inexact-float".

(** A loaded row with the fields the examples vary; every other cell is
    missing. *)
Definition page (addr : string) (ctype : string) (status rt tl : float)
    (canonical istatus modified : text) : RawRow :=
  {| address := Some addr;
     status_code := RawNum status;
     content_type := Some ctype;
     response_time := rt;
     indexability := None;
     indexability_status := istatus;
     canonical_link_element_1 := canonical;
     title_1 := None;
     title_1_length := tl;
     meta_description_1 := None;
     meta_description_1_length := PrimFloat.nan;
     word_count := PrimFloat.nan;
     flesch_reading_ease_score := PrimFloat.nan;
     no_near_duplicates := PrimFloat.nan;
     closest_similarity_match := PrimFloat.nan;
     crawl_depth := PrimFloat.nan;
     inlinks := PrimFloat.nan;
     outlinks := PrimFloat.nan;
     link_score := PrimFloat.nan;
     size_bytes := PrimFloat.nan;
     last_modified := modified;
     http_version := None |}.

(** Parsers for the examples: no text is a number, every text is the date
    of the epoch. *)
Definition no_number (s : string) : float := PrimFloat.nan.
Definition epoch (s : string) : stamp := Some 0%Z.

(** A storage holding one export under the path the audit reads. *)
Definition holding (raw : RawFrame) : storage :=
  fun p => if String.eqb p file_path then Some raw else None.

Definition nothing : storage := fun _ => None.

(** An image with no title. *)
Definition logo : RawRow :=
  page "https://example.com/logo.png" "image/png" 200 0.1 PrimFloat.nan
       None None None.

(** The home page, crawled twice. *)
Definition home : RawRow :=
  page "https://example.com/" "text/html" 200 0.1 55
       (Some "https://example.com/") (Some "Indexable") None.

Definition home_again : RawRow :=
  page "https://example.com/" "text/html; charset=utf-8" 200 0.2 55
       (Some "https://example.com/") (Some "Indexable") None.

(** The address of the home page answering with an image. *)
Definition home_as_image : RawRow :=
  page "https://example.com/" "image/png" 200 0.1 PrimFloat.nan
       None None None.

(** A page with a last-modified date. *)
Definition dated : RawRow :=
  page "https://example.com/old" "text/html" 200 0.1 55
       (Some "https://example.com/old") (Some "Indexable")
       (Some "1970-01-01 00:00:00").

(** A page whose canonical link is the empty string. *)
Definition empty_canonical : RawRow :=
  page "https://example.com/e" "text/html" 200 0.1 55 (Some "") None None.

(** The three rows of the end-to-end scenario. *)
Definition row_a : RawRow :=
  page "https://example.com/a" "text/html" 200 0.3 55 None None None.
Definition row_b : RawRow :=
  page "https://example.com/b" "text/html" 404 0.8 45 None None None.
Definition row_c : RawRow :=
  page "https://example.com/c" "text/html" 200 0.2 65 None None None.

(** A cleaned row in which every cell but the address is missing. *)
Definition hollow : Row :=
  {| address := Some "https://example.com/x";
     status_code := PrimFloat.nan;
     content_type := None;
     response_time := PrimFloat.nan;
     indexability := None;
     indexability_status := None;
     canonical_link_element_1 := None;
     title_1 := None;
     title_1_length := PrimFloat.nan;
     meta_description_1 := None;
     meta_description_1_length := PrimFloat.nan;
     word_count := PrimFloat.nan;
     flesch_reading_ease_score := PrimFloat.nan;
     no_near_duplicates := PrimFloat.nan;
     closest_similarity_match := PrimFloat.nan;
     crawl_depth := PrimFloat.nan;
     inlinks := PrimFloat.nan;
     outlinks := PrimFloat.nan;
     link_score := PrimFloat.nan;
     size_bytes := PrimFloat.nan;
     last_modified := None;
     http_version := None |}.

(** A cleaned HTML row with an address and a title and nothing else. *)
Definition titled_page (addr title : string) : Row :=
  {| address := Some addr;
     status_code := PrimFloat.nan;
     content_type := Some "text/html";
     response_time := PrimFloat.nan;
     indexability := None;
     indexability_status := None;
     canonical_link_element_1 := None;
     title_1 := Some title;
     title_1_length := PrimFloat.nan;
     meta_description_1 := None;
     meta_description_1_length := PrimFloat.nan;
     word_count := PrimFloat.nan;
     flesch_reading_ease_score := PrimFloat.nan;
     no_near_duplicates := PrimFloat.nan;
     closest_similarity_match := PrimFloat.nan;
     crawl_depth := PrimFloat.nan;
     inlinks := PrimFloat.nan;
     outlinks := PrimFloat.nan;
     link_score := PrimFloat.nan;
     size_bytes := PrimFloat.nan;
     last_modified := None;
     http_version := None |}.

(** A reader that hands back the sheets of a workbook as they were
    written, and raises on any other name. *)
Definition reading (sheets : list (string * Table.t)) : Dashboard.excel_reader :=
  fun name => sheet name sheets.

(** An export whose normalised header has the columns of the contract. *)
Definition full_export : Dashboard.csv_file :=
  Dashboard.Csv (map Col.name Col.all).

End Examples.

(** * Facts *)

(** ** Missing numbers: every comparison with NaN is false *)

Module NaN.

Lemma compare_right (x : spec_float) : SFcompare x S754_nan = None.
Proof. destruct x; reflexivity. Qed.

Lemma only_nan_differs_from_itself (s : spec_float) :
  SFeqb s s = false -> s = S754_nan.
Proof.
  destruct s as [b | b | | b m e]; unfold SFeqb; simpl;
    try discriminate; try reflexivity.
  - destruct b; discriminate.
  - destruct b; rewrite Z.compare_refl, Pos.compare_cont_refl; simpl; discriminate.
Qed.

Lemma spec (x : float) : PrimFloat.is_nan x = true -> Prim2SF x = S754_nan.
Proof.
  unfold PrimFloat.is_nan. rewrite eqb_spec. intros H.
  apply only_nan_differs_from_itself. now apply negb_true_iff.
Qed.

Lemma ltb_l (x y : float) : PrimFloat.is_nan x = true -> PrimFloat.ltb x y = false.
Proof. intros H. rewrite ltb_spec, (spec x H). reflexivity. Qed.

Lemma ltb_r (x y : float) : PrimFloat.is_nan y = true -> PrimFloat.ltb x y = false.
Proof.
  intros H. rewrite ltb_spec, (spec y H). unfold SFltb.
  now rewrite compare_right.
Qed.

Lemma leb_l (x y : float) : PrimFloat.is_nan x = true -> PrimFloat.leb x y = false.
Proof. intros H. rewrite leb_spec, (spec x H). reflexivity. Qed.

Lemma leb_r (x y : float) : PrimFloat.is_nan y = true -> PrimFloat.leb x y = false.
Proof.
  intros H. rewrite leb_spec, (spec y H). unfold SFleb.
  now rewrite compare_right.
Qed.

(** After [fillna] a cell is missing only if the default is. *)
Lemma fillna_filled (d x : float) :
  PrimFloat.is_nan d = false -> PrimFloat.is_nan (fillna d x) = false.
Proof.
  intros Hd. unfold fillna. destruct (PrimFloat.is_nan x) eqn:E; assumption.
Qed.

End NaN.

(** ** Text keys *)

Lemma text_eqb_eq (a b : text) : text_eqb a b = true <-> a = b.
Proof.
  destruct a as [x|], b as [y|]; simpl; try (split; congruence).
  rewrite String.eqb_eq. split; congruence.
Qed.

(** ** [drop_duplicates] *)

Module DropDuplicates.

Import Frame.

Section Keyed.

Context {A K : Type}.
Variable key : A -> K.
Variable eqb : K -> K -> bool.
Hypothesis eqb_eq : forall a b, eqb a b = true <-> a = b.

Lemma seen_in_In (k : K) (seen : list K) : seen_in eqb k seen = true <-> In k seen.
Proof.
  unfold seen_in. rewrite existsb_exists. split.
  - intros [x [Hx Hk]]. apply eqb_eq in Hk. now subst.
  - intros Hk. exists k. split; [assumption | now apply eqb_eq].
Qed.

(** A kept row is a row of the frame and its key had not been seen. *)
Lemma kept (seen : list K) (rows : list A) (r : A) :
  In r (drop_duplicates_from key eqb seen rows) ->
  In r rows /\ ~ In (key r) seen.
Proof.
  revert seen. induction rows as [|x rest IH]; intros seen; simpl; [tauto|].
  destruct (seen_in eqb (key x) seen) eqn:E.
  - intros H. apply IH in H. tauto.
  - intros [-> | H].
    + split; [now left|]. intros Hin. apply seen_in_In in Hin. congruence.
    + apply IH in H. simpl in H. tauto.
Qed.

(** No key is kept twice. *)
Lemma keys_NoDup_from (seen : list K) (rows : list A) :
  NoDup (map key (drop_duplicates_from key eqb seen rows)).
Proof.
  revert seen. induction rows as [|x rest IH]; intros seen; simpl; [constructor|].
  destruct (seen_in eqb (key x) seen) eqn:E; [apply IH|].
  simpl. constructor; [|apply IH].
  rewrite in_map_iff. intros [r [Hk Hr]].
  apply kept in Hr. destruct Hr as [_ Hr]. apply Hr. rewrite Hk. now left.
Qed.

Lemma keys_NoDup (rows : list A) :
  NoDup (map key (drop_duplicates key eqb rows)).
Proof. apply keys_NoDup_from. Qed.

(** The first row under each key is the one that is kept. *)
Lemma first_kept_from (seen : list K) (rows : list A) (k : K) :
  ~ In k seen ->
  find (fun r => eqb (key r) k) (drop_duplicates_from key eqb seen rows)
  = find (fun r => eqb (key r) k) rows.
Proof.
  revert seen. induction rows as [|x rest IH]; intros seen Hk; simpl; [reflexivity|].
  destruct (seen_in eqb (key x) seen) eqn:E.
  - destruct (eqb (key x) k) eqn:Ek.
    + apply eqb_eq in Ek. subst k. apply seen_in_In in E. contradiction.
    + now apply IH.
  - simpl. destruct (eqb (key x) k) eqn:Ek; [reflexivity|].
    apply IH. simpl. intros [Heq | Hin]; [|contradiction].
    subst k. assert (eqb (key x) (key x) = true) by now apply eqb_eq. congruence.
Qed.

Lemma first_kept (rows : list A) (k : K) :
  find (fun r => eqb (key r) k) (drop_duplicates key eqb rows)
  = find (fun r => eqb (key r) k) rows.
Proof. apply first_kept_from. intros []. Qed.

(** Rows are dropped, never added, and the kept ones stay in order. *)
Lemma is_filter_from (seen : list K) (rows : list A) :
  exists keep : list bool,
    List.length keep = List.length rows /\
    drop_duplicates_from key eqb seen rows
    = map fst (filter snd (combine rows keep)).
Proof.
  revert seen. induction rows as [|x rest IH]; intros seen; simpl.
  - exists []. split; reflexivity.
  - destruct (seen_in eqb (key x) seen).
    + destruct (IH seen) as [keep [Hl He]]. exists (false :: keep).
      simpl. split; [congruence | exact He].
    + destruct (IH (key x :: seen)) as [keep [Hl He]]. exists (true :: keep).
      simpl. split; [congruence | now rewrite He].
Qed.

Lemma length_le_from (seen : list K) (rows : list A) :
  List.length (drop_duplicates_from key eqb seen rows) <= List.length rows.
Proof.
  revert seen. induction rows as [|x rest IH]; intros seen; simpl; [lia|].
  destruct (seen_in eqb (key x) seen); simpl.
  - specialize (IH seen). lia.
  - specialize (IH (key x :: seen)). lia.
Qed.

(** A frame whose keys are all different, and unseen, is left as it is. *)
Lemma nothing_to_drop_from (seen : list K) (rows : list A) :
  NoDup (map key rows) ->
  (forall r, In r rows -> ~ In (key r) seen) ->
  drop_duplicates_from key eqb seen rows = rows.
Proof.
  revert seen. induction rows as [|x rest IH]; intros seen Hnd Hseen; simpl; [reflexivity|].
  inversion Hnd as [|? ? Hx Hrest]; subst.
  destruct (seen_in eqb (key x) seen) eqn:E.
  - apply seen_in_In in E. exfalso. apply (Hseen x); [now left | assumption].
  - f_equal. apply IH; [assumption|].
    intros r Hr [Heq | Hin].
    + apply Hx. rewrite Heq. now apply in_map.
    + apply (Hseen r); [now right | assumption].
Qed.

Lemma nothing_to_drop (rows : list A) :
  NoDup (map key rows) -> drop_duplicates key eqb rows = rows.
Proof. intros H. apply nothing_to_drop_from; [assumption | intros r _ []]. Qed.

End Keyed.

End DropDuplicates.

(** ** Sorting and grouping keep the rows they are given *)

Module Sorting.

Import Frame.

Lemma insert_by_perm {A : Type} (le : A -> A -> bool) (x : A) (l : list A) :
  Permutation (insert_by le x l) (x :: l).
Proof.
  induction l as [|y rest IH]; simpl; [reflexivity|].
  destruct (le x y); [reflexivity|].
  rewrite IH. apply perm_swap.
Qed.

Lemma sort_by_perm {A : Type} (le : A -> A -> bool) (l : list A) :
  Permutation (sort_by le l) l.
Proof.
  induction l as [|x rest IH]; simpl; [reflexivity|].
  rewrite insert_by_perm. now constructor.
Qed.

Lemma sort_by_In {A : Type} (le : A -> A -> bool) (l : list A) (x : A) :
  In x (sort_by le l) <-> In x l.
Proof.
  split; apply Permutation_in;
    [apply sort_by_perm | apply Permutation_sym, sort_by_perm].
Qed.

Lemma sort_by_length {A : Type} (le : A -> A -> bool) (l : list A) :
  List.length (sort_by le l) = List.length l.
Proof. apply Permutation_length, sort_by_perm. Qed.

(** Every value of a group comes from a row of the frame under that key. *)
Lemma groupby_list_from {A V : Type} (key : A -> text) (val : A -> V)
    (rows : list A) (k : string) (vs : list V) (v : V) :
  In (k, vs) (groupby_list key val rows) -> In v vs ->
  exists r, In r rows /\ key r = Some k /\ val r = v.
Proof.
  unfold groupby_list. rewrite in_map_iff.
  intros [k' [Heq _]] Hv. inversion Heq; subst k' vs. clear Heq.
  apply in_map_iff in Hv. destruct Hv as [r [Hval Hr]].
  apply filter_In in Hr. destruct Hr as [Hr Hk].
  exists r. repeat split; try assumption.
  unfold text_is in Hk. destruct (key r) as [s|]; [|discriminate].
  apply String.eqb_eq in Hk. now subst.
Qed.

End Sorting.

(** ** Results are projections of rows of the frame they are computed from *)

Module Results.

Import Audit Observe.

Lemma select_In (mask : Row -> bool) (df : DataFrame) (r : Row) :
  In r (select mask df) <-> In r df /\ mask r = true.
Proof. apply filter_In. Qed.




Lemma sort_values_len (c : Col.column) (asc : bool) (tb : Table.t) :
  Table.len (Table.sort_values c asc tb) = Table.len tb.
Proof. unfold Table.len. simpl. apply Sorting.sort_by_length. Qed.

Lemma project_len (cols : list Col.column) (df : DataFrame) :
  Table.len (project cols df) = List.length df.
Proof. unfold Table.len. simpl. apply length_map. Qed.


(** The addresses listed under a repeated title are addresses of rows of
    the frame carrying that title. *)
Lemma dup_titles_from_their_frame (df : DataFrame) (t : string)
    (addrs : list text) (a : text) :
  In (t, addrs) (dup_titles df) -> In a addrs ->
  exists r, In r df /\ title_1 r = Some t /\ address r = a.
Proof.
  intros Hg Ha. unfold dup_titles in Hg.
  destruct (Sorting.groupby_list_from _ _ _ _ _ _ Hg Ha) as [r [Hr [Ht Hadd]]].
  unfold Frame.duplicated_all in Hr. apply filter_In in Hr.
  exists r. tauto.
Qed.


End Results.

(** ** [clean_data] *)

Module Cleaning.

Import Audit Observe.

Section Parsers.

Variable pn : string -> float.
Variable pd : string -> stamp.

Lemma cleaned_df_eq (raw : RawFrame) :
  cleaned_df pn pd raw
  = Frame.drop_duplicates (@address _ _) text_eqb (map (clean_row pn pd) raw).
Proof. reflexivity. Qed.

Lemma cleaned_html_df_eq (raw : RawFrame) :
  cleaned_html_df pn pd raw = select is_html (map (clean_row pn pd) raw).
Proof. reflexivity. Qed.

Lemma clean_row_address (r : RawRow) : address (clean_row pn pd r) = address r.
Proof. reflexivity. Qed.

(** The two length columns hold a number in every cleaned row. *)
Lemma lengths_filled (r : RawRow) :
  PrimFloat.is_nan (title_1_length (clean_row pn pd r)) = false /\
  PrimFloat.is_nan (meta_description_1_length (clean_row pn pd r)) = false.
Proof. split; apply NaN.fillna_filled; reflexivity. Qed.

(** The frame of all rows has one row per address ... *)
Lemma df_unique (raw : RawFrame) : unique_addresses (cleaned_df pn pd raw).
Proof.
  unfold unique_addresses. rewrite cleaned_df_eq.
  apply DropDuplicates.keys_NoDup. exact text_eqb_eq.
Qed.

(** ... which is the first row loaded under that address, cleaned; no
    later row under the same address changes it. *)
Lemma df_keeps_first (raw : RawFrame) (a : text) :
  first_with a (cleaned_df pn pd raw)
  = option_map (clean_row pn pd) (first_with a raw).
Proof.
  unfold first_with. rewrite cleaned_df_eq.
  rewrite (DropDuplicates.first_kept _ _ text_eqb_eq).
  induction raw as [|r rest IH]; simpl; [reflexivity|].
  destruct (text_eqb (address r) a); [reflexivity | exact IH].
Qed.

(** Rows are only dropped: the frame is never longer than the export. *)
Lemma df_length (raw : RawFrame) :
  List.length (cleaned_df pn pd raw) <= List.length raw.
Proof.
  rewrite cleaned_df_eq. unfold Frame.drop_duplicates.
  etransitivity; [apply DropDuplicates.length_le_from | now rewrite length_map].
Qed.

(** An export without repeated addresses loses no row. *)
Lemma df_of_unique (raw : RawFrame) :
  unique_addresses raw -> cleaned_df pn pd raw = map (clean_row pn pd) raw.
Proof.
  intros H. rewrite cleaned_df_eq.
  apply (DropDuplicates.nothing_to_drop _ _ text_eqb_eq).
  rewrite map_map. exact H.
Qed.

End Parsers.

End Cleaning.

(** ** Properties of the specification, checked on the code *)

Import Audit Observe.

#[local] Set Warnings "-inexact-float".

(** C1 (defect in [generate_report]).  The HTML rules of the workbook read
    [df], the frame of all rows, where [analyze_onpage_seo] and
    [analyze_content_quality] are given [html_df].  On a crawl of one
    image without a title, the HTML frame is empty and the rule's own
    artifact is empty, yet the sheet [Suboptimal Titles] holds the image:
    a row that is absent from the HTML partition. *)
Theorem title_sheet_holds_a_row_outside_the_html_frame
    (pn : string -> float) (pd : string -> stamp) (now : Z) :
  let df := cleaned_df pn pd [Examples.logo] in
  let html_df := cleaned_html_df pn pd [Examples.logo] in
  html_df = [] /\
  suboptimal_titles html_df = [] /\
  exists tb,
    sheet "Suboptimal Titles" (report_sheets now df html_df) = Some tb /\
    Table.body tb
    = [[Text (Some "https://example.com/logo.png"); Text None; Num 0]] /\
    ~ from_rows tb html_df.
Proof.
  split; [reflexivity|]. split; [reflexivity|].
  eexists. split; [reflexivity|]. split; [reflexivity|].
  intros H. destruct (H _ (or_introl eq_refl)) as [r [[] _]].
Qed.

(** C2 (defect in [clean_data]).  [html_df] is taken one statement before
    [drop_duplicates] runs, so it is never deduplicated.  On a crawl that
    lists the home page twice the frame of all rows keeps one row, the
    first, and the HTML frame keeps both: two rows with one address. *)
Theorem html_frame_keeps_both_rows_of_an_address
    (pn : string -> float) (pd : string -> stamp) :
  let raw := [Examples.home; Examples.home_again] in
  cleaned_df pn pd raw = [clean_row pn pd Examples.home] /\
  cleaned_html_df pn pd raw
  = [clean_row pn pd Examples.home; clean_row pn pd Examples.home_again] /\
  address (clean_row pn pd Examples.home)
  = address (clean_row pn pd Examples.home_again) /\
  ~ unique_addresses (cleaned_html_df pn pd raw).
Proof.
  repeat split; try reflexivity.
  intros H. inversion H as [|? ? Hin _]. apply Hin. now left.
Qed.

(** ** The main block *)

Lemma main_absent (pn : string -> float) (pd : string -> stamp)
    (fs : storage) (t1 t2 : Z) :
  fs file_path = None ->
  main pn pd fs t1 t2
  = {| trace := [Say "Error: data/raw/internal_all_02.csv not found."];
       exit_message := Some "Exiting due to file error." |}.
Proof. intros H. unfold main, load_data. rewrite H. reflexivity. Qed.

Lemma main_present (pn : string -> float) (pd : string -> stamp)
    (fs : storage) (t1 t2 : Z) (raw : RawFrame) :
  fs file_path = Some raw ->
  main pn pd fs t1 t2
  = {| trace :=
         fst (clean_data pn pd raw)
         ++ analyze_crawl_overview (cleaned_df pn pd raw)
         ++ analyze_indexability (cleaned_df pn pd raw)
         ++ analyze_onpage_seo (cleaned_html_df pn pd raw)
         ++ analyze_content_quality (cleaned_html_df pn pd raw)
         ++ analyze_site_architecture (cleaned_df pn pd raw)
         ++ analyze_performance t1 (cleaned_df pn pd raw)
         ++ generate_report t2 (cleaned_df pn pd raw) (cleaned_html_df pn pd raw);
       exit_message := None |}.
Proof. intros H. unfold main, load_data. rewrite H. reflexivity. Qed.

(** C8.  When the export is absent the run prints the error, raises
    [SystemExit] and has done nothing else: no file is written, neither
    the cleaned frame nor any artifact nor the workbook. *)
Theorem absent_source_aborts_with_nothing_written
    (pn : string -> float) (pd : string -> stamp) (fs : storage) (t1 t2 : Z) :
  fs file_path = None ->
  trace (main pn pd fs t1 t2)
  = [Say "Error: data/raw/internal_all_02.csv not found."] /\
  exit_message (main pn pd fs t1 t2) = Some "Exiting due to file error." /\
  filter writes (trace (main pn pd fs t1 t2)) = [] /\
  workbook "reports/audit_report.xlsx" (trace (main pn pd fs t1 t2)) = None.
Proof.
  intros H. rewrite (main_absent _ _ _ _ _ H). repeat split.
Qed.

Lemma absent_source_witness :
  Examples.nothing file_path = None /\
  filter writes
    (trace (main Examples.no_number Examples.epoch Examples.nothing 0 0)) = [].
Proof.
  split; [reflexivity|].
  apply (absent_source_aborts_with_nothing_written
           Examples.no_number Examples.epoch Examples.nothing 0 0).
  reflexivity.
Defined.

(** C3, as the code has it.  Two runs over the same export agree on
    everything but what they say about outdated pages: the other count
    lines, the other artifacts and the other sheets of the workbook are the
    same, whatever the clock read in either run. *)
Theorem runs_agree_apart_from_outdated
    (pn : string -> float) (pd : string -> stamp) (fs : storage)
    (t1 t2 u1 u2 : Z) :
  exit_message (main pn pd fs t1 t2) = exit_message (main pn pd fs u1 u2) /\
  flat_map apart_from_outdated (trace (main pn pd fs t1 t2))
  = flat_map apart_from_outdated (trace (main pn pd fs u1 u2)).
Proof.
  destruct (fs file_path) as [raw|] eqn:E.
  - rewrite !(main_present _ _ _ _ _ _ E). split; reflexivity.
  - rewrite !(main_absent _ _ _ _ _ E). split; reflexivity.
Qed.

(** C3, as stated, fails: the outdated rule compares with the clock.  A
    page last modified at the epoch is not outdated for a run exactly one
    year later and is outdated for a run one nanosecond after that. *)
Lemma two_runs_differ_on_outdated :
  let fs := Examples.holding [Examples.dated] in
  let first := main Examples.no_number Examples.epoch fs one_year one_year in
  let second :=
    main Examples.no_number Examples.epoch fs (one_year + 1) (one_year + 1) in
  printed_count "Outdated Pages (>1 year)" (trace first) = Some 0 /\
  printed_count "Outdated Pages (>1 year)" (trace second) = Some 1 /\
  option_map (sheet "Outdated Pages")
    (workbook "reports/audit_report.xlsx" (trace first))
  <> option_map (sheet "Outdated Pages")
       (workbook "reports/audit_report.xlsx" (trace second)) /\
  first <> second.
Proof.
  split; [reflexivity|]. split; [reflexivity|]. split.
  - vm_compute. discriminate.
  - intros H.
    apply (f_equal (fun o => printed_count "Outdated Pages (>1 year)" (trace o))) in H.
    vm_compute in H. discriminate.
Qed.

(** ** The end-to-end scenario *)

Lemma select_keep (mask : Row -> bool) (r : Row) (df : DataFrame) :
  mask r = true -> select mask (r :: df) = r :: select mask df.
Proof. intros H. unfold select. simpl. now rewrite H. Qed.

Lemma select_skip (mask : Row -> bool) (r : Row) (df : DataFrame) :
  mask r = false -> select mask (r :: df) = select mask df.
Proof. intros H. unfold select. simpl. now rewrite H. Qed.

Lemma three_addresses_unique (a b c : RawRow) :
  address a <> address b -> address a <> address c -> address b <> address c ->
  unique_addresses [a; b; c].
Proof.
  intros Hab Hac Hbc. unfold unique_addresses. simpl.
  repeat constructor; simpl; intuition congruence.
Qed.

Ltac mask_at Hs Hr Ht :=
  unfold is_slow, is_4xx, is_suboptimal_title, between; simpl;
  rewrite ?Hs, ?Hr, ?Ht; reflexivity.

Lemma select_select (p q : Row -> bool) (df : DataFrame) :
  select p (select q df) = select q (select p df).
Proof.
  unfold select. induction df as [|r rest IH]; simpl; [reflexivity|].
  destruct (p r) eqn:Ep, (q r) eqn:Eq; simpl;
    rewrite ?Ep, ?Eq; now rewrite IH.
Qed.

(** C4.  Three rows under three addresses: (a) status 200, 0.3 s, title of
    55 characters; (b) status 404, 0.8 s, 45 characters; (c) status 200,
    0.2 s, 65 characters.  The slow-pages result and the [Slow Pages]
    sheet hold exactly (b); the [Suboptimal Titles] sheet holds exactly (b)
    and (c), and so does the result of the suboptimal-titles rule, which
    reads the HTML frame, when (b) and (c) are HTML pages; the [4xx
    Errors] sheet holds exactly (b). *)
Theorem three_row_scenario
    (pn : string -> float) (pd : string -> stamp) (now : Z)
    (a b c : RawRow) :
  address a <> address b -> address a <> address c -> address b <> address c ->
  status_code a = RawNum 200 -> response_time a = 0.3%float ->
  title_1_length a = 55%float ->
  status_code b = RawNum 404 -> response_time b = 0.8%float ->
  title_1_length b = 45%float ->
  status_code c = RawNum 200 -> response_time c = 0.2%float ->
  title_1_length c = 65%float ->
  let df := cleaned_df pn pd [a; b; c] in
  let html_df := cleaned_html_df pn pd [a; b; c] in
  let b' := clean_row pn pd b in
  let c' := clean_row pn pd c in
  slow_pages df
  = project [Col.address; Col.response_time; Col.status_code] [b'] /\
  In (ToExcel "reports/slow_pages.xlsx"
        (project [Col.address; Col.response_time; Col.status_code] [b']))
     (analyze_crawl_overview df) /\
  sheet "Slow Pages" (report_sheets now df html_df)
  = Some (project [Col.address; Col.response_time] [b']) /\
  sheet "Suboptimal Titles" (report_sheets now df html_df)
  = Some (project [Col.address; Col.title_1; Col.title_1_length] [b'; c']) /\
  sheet "4xx Errors" (report_sheets now df html_df)
  = Some (project [Col.address; Col.status_code] [b']) /\
  suboptimal_titles html_df = select is_html [b'; c'] /\
  (is_html b' = true -> is_html c' = true ->
   suboptimal_titles html_df = [b'; c'] /\
   In (ToExcel "reports/suboptimal_titles.xlsx"
         (project [Col.address; Col.title_1; Col.title_1_length] [b'; c']))
      (analyze_onpage_seo html_df)).
Proof.
  intros Hab Hac Hbc Sa Ra Ta Sb Rb Tb Sc Rc Tc df html_df b' c'.
  pose proof (Cleaning.df_of_unique pn pd _
                (three_addresses_unique a b c Hab Hac Hbc)) as Hdf.
  simpl map in Hdf. fold b' c' df in Hdf.
  assert (Hslow : select is_slow df = [b']).
  { rewrite Hdf.
    rewrite select_skip by mask_at Sa Ra Ta.
    rewrite select_keep by (subst b'; mask_at Sb Rb Tb).
    rewrite select_skip by (subst c'; mask_at Sc Rc Tc).
    reflexivity. }
  assert (Htitle : select is_suboptimal_title [clean_row pn pd a; b'; c']
                   = [b'; c']).
  { rewrite select_skip by mask_at Sa Ra Ta.
    rewrite select_keep by (subst b'; mask_at Sb Rb Tb).
    rewrite select_keep by (subst c'; mask_at Sc Rc Tc).
    reflexivity. }
  assert (H4xx : select is_4xx df = [b']).
  { rewrite Hdf.
    rewrite select_skip by mask_at Sa Ra Ta.
    rewrite select_keep by (subst b'; mask_at Sb Rb Tb).
    rewrite select_skip by (subst c'; mask_at Sc Rc Tc).
    reflexivity. }
  assert (Hown : suboptimal_titles html_df = select is_html [b'; c']).
  { unfold suboptimal_titles, html_df. rewrite Cleaning.cleaned_html_df_eq.
    simpl map. fold b' c'. rewrite select_select. now rewrite Htitle. }
  split; [unfold slow_pages; now rewrite Hslow|].
  split; [unfold analyze_crawl_overview, slow_pages; rewrite Hslow;
          simpl; tauto|].
  assert (Hsheet : select is_suboptimal_title df = [b'; c'])
    by (rewrite Hdf; exact Htitle).
  unfold report_sheets. rewrite Hslow, H4xx, Hsheet.
  split; [reflexivity|]. split; [reflexivity|]. split; [reflexivity|].
  split; [exact Hown|].
  intros Hb Hc.
  assert (Hboth : suboptimal_titles html_df = [b'; c']).
  { rewrite Hown. rewrite select_keep by exact Hb.
    rewrite select_keep by exact Hc. reflexivity. }
  split; [exact Hboth|].
  unfold analyze_onpage_seo. rewrite Hboth. simpl. tauto.
Qed.

Lemma three_row_scenario_witness :
  suboptimal_titles
    (cleaned_html_df Examples.no_number Examples.epoch
       [Examples.row_a; Examples.row_b; Examples.row_c])
  = [clean_row Examples.no_number Examples.epoch Examples.row_b;
     clean_row Examples.no_number Examples.epoch Examples.row_c].
Proof.
  apply (three_row_scenario Examples.no_number Examples.epoch 0
           Examples.row_a Examples.row_b Examples.row_c);
    try reflexivity; simpl; discriminate.
Defined.

(** ** Thresholds and missing values *)

(** Whole title lengths up to 5000 characters, checked one by one. *)
Lemma title_lengths_checked :
  forallb (fun n =>
             Bool.eqb
               (PrimFloat.ltb (chars n) 50 || PrimFloat.ltb 60 (chars n))
               ((n <? 50) || (60 <? n))%Z)
          (upto 5001)
  = true.
Proof. vm_compute. reflexivity. Qed.

Lemma title_length_checked (n : Z) :
  (0 <= n <= 5000)%Z ->
  PrimFloat.ltb (chars n) 50 || PrimFloat.ltb 60 (chars n)
  = ((n <? 50) || (60 <? n))%Z.
Proof.
  intros Hn. pose proof title_lengths_checked as Hall.
  rewrite forallb_forall in Hall. apply Bool.eqb_prop, Hall.
  unfold upto. apply in_map_iff. exists (Z.to_nat n).
  split; [lia|]. apply in_seq. lia.
Qed.

(** C5.  The suboptimal-titles rule selects a row exactly when its title
    length is strictly below 50 or strictly above 60, in the artifact as in
    the sheet, which apply the same mask.  A title of 50 or of 60
    characters is not flagged, one of 49 or of 61 is; and for every whole
    length up to 5000 the mask agrees with the comparison of the whole
    numbers. *)
Theorem suboptimal_titles_strict_bounds (df : DataFrame) (r : Row) :
  (In r (suboptimal_titles df) <->
   In r df /\ (PrimFloat.ltb (title_1_length r) 50 = true \/
               PrimFloat.ltb 60 (title_1_length r) = true)) /\
  (title_1_length r = 50%float -> is_suboptimal_title r = false) /\
  (title_1_length r = 60%float -> is_suboptimal_title r = false) /\
  (title_1_length r = 49%float -> is_suboptimal_title r = true) /\
  (title_1_length r = 61%float -> is_suboptimal_title r = true) /\
  (forall n : Z, (0 <= n <= 5000)%Z -> title_1_length r = chars n ->
     (is_suboptimal_title r = true <-> (n < 50 \/ 60 < n)%Z)).
Proof.
  split; [|split; [|split; [|split; [|split]]]].
  - unfold suboptimal_titles. rewrite Results.select_In.
    unfold is_suboptimal_title. rewrite orb_true_iff. tauto.
  - intros H. unfold is_suboptimal_title. rewrite H. reflexivity.
  - intros H. unfold is_suboptimal_title. rewrite H. reflexivity.
  - intros H. unfold is_suboptimal_title. rewrite H. reflexivity.
  - intros H. unfold is_suboptimal_title. rewrite H. reflexivity.
  - intros n Hn Hlen. unfold is_suboptimal_title. rewrite Hlen.
    rewrite (title_length_checked n Hn), orb_true_iff.
    rewrite Z.ltb_lt, Z.ltb_lt. tauto.
Qed.

Lemma suboptimal_titles_witness :
  is_suboptimal_title
    (clean_row Examples.no_number Examples.epoch Examples.row_b) = true
  <-> (45 < 50 \/ 60 < 45)%Z.
Proof.
  apply (suboptimal_titles_strict_bounds []
           (clean_row Examples.no_number Examples.epoch Examples.row_b)).
  - lia.
  - reflexivity.
Defined.

(** C6.  The missing-canonical rule selects a row exactly when its
    canonical link is missing; a row whose canonical link is a string, be
    it the empty one, is not selected. *)
Theorem missing_canonical_selects_missing (df : DataFrame) (r : Row) :
  (In r (select is_missing_canonical df) <->
   In r df /\ canonical_link_element_1 r = None) /\
  (forall s : string,
     canonical_link_element_1 r = Some s ->
     is_missing_canonical r = false /\
     ~ In r (select is_missing_canonical df)) /\
  (canonical_link_element_1 r = Some "" -> is_missing_canonical r = false).
Proof.
  unfold is_missing_canonical. repeat split.
  - now apply Results.select_In in H.
  - apply Results.select_In in H. destruct H as [_ H].
    destruct (canonical_link_element_1 r); [discriminate | reflexivity].
  - intros [Hin Hc]. apply Results.select_In. rewrite Hc. now split.
  - now rewrite H.
  - rewrite Results.select_In, H. simpl. intros [_ Hf]. discriminate.
  - intros H. now rewrite H.
Qed.

Lemma missing_canonical_witness :
  ~ In (clean_row Examples.no_number Examples.epoch Examples.empty_canonical)
       (select is_missing_canonical
          [clean_row Examples.no_number Examples.epoch Examples.empty_canonical]).
Proof.
  apply (missing_canonical_selects_missing
           [clean_row Examples.no_number Examples.epoch Examples.empty_canonical]
           (clean_row Examples.no_number Examples.epoch Examples.empty_canonical))
    with (s := "").
  reflexivity.
Defined.

(** C7.  A rule that compares a number or the timestamp never matches a
    row in which that cell is missing: slow pages, thin content, low
    readability, near duplicates, deep pages, low inlinks, large pages and
    outdated pages.  No row without a last-modified timestamp is selected
    as outdated, and no line of the outdated table lacks its timestamp. *)
Theorem missing_values_never_match (now : Z) (df : DataFrame) (r : Row) :
  (PrimFloat.is_nan (response_time r) = true -> is_slow r = false) /\
  (PrimFloat.is_nan (word_count r) = true -> is_thin r = false) /\
  (PrimFloat.is_nan (flesch_reading_ease_score r) = true ->
   is_low_readability r = false) /\
  (PrimFloat.is_nan (no_near_duplicates r) = true ->
   is_near_duplicate r = false) /\
  (PrimFloat.is_nan (crawl_depth r) = true -> is_deep r = false) /\
  (PrimFloat.is_nan (inlinks r) = true -> is_low_inlinks r = false) /\
  (PrimFloat.is_nan (size_bytes r) = true -> is_large r = false) /\
  (last_modified r = None ->
   is_outdated now r = false /\ ~ In r (select (is_outdated now) df)) /\
  (forall a : text, ~ In [Text a; Stamp None] (Table.body (outdated now df))).
Proof.
  repeat split.
  - apply NaN.ltb_r.
  - apply NaN.ltb_l.
  - apply NaN.ltb_l.
  - apply NaN.ltb_r.
  - apply NaN.ltb_r.
  - apply NaN.ltb_l.
  - apply NaN.ltb_r.
  - unfold is_outdated. now rewrite H.
  - rewrite Results.select_In. unfold is_outdated. rewrite H. simpl.
    intros [_ Hf]. discriminate.
  - intros a Hin. simpl in Hin. apply in_map_iff in Hin.
    destruct Hin as [x [Hl Hx]]. apply Results.select_In in Hx.
    destruct Hx as [_ Hx]. unfold is_outdated in Hx.
    inversion Hl as [[Ha Hm]]. rewrite Hm in Hx. discriminate.
Qed.

Lemma missing_values_witness :
  is_slow Examples.hollow = false /\
  ~ In Examples.hollow (select (is_outdated 0) [Examples.hollow]).
Proof.
  destruct (missing_values_never_match 0 [Examples.hollow] Examples.hollow)
    as [Hslow [_ [_ [_ [_ [_ [_ [Hout _]]]]]]]].
  split.
  - apply Hslow. reflexivity.
  - apply Hout. reflexivity.
Defined.

(** ** The metric cards of the dashboard *)

Module Cards.

Import Dashboard.

Lemma read_sheets_none (read_excel : excel_reader)
    (keys : list (string * string)) :
  read_sheets read_excel keys = None <->
  exists k n, In (k, n) keys /\ read_excel n = None.
Proof.
  induction keys as [|[k0 n0] rest IH]; simpl.
  - split; [discriminate | intros [k [n [[] _]]]].
  - destruct (read_excel n0) as [tb|] eqn:E.
    + destruct (read_sheets read_excel rest) as [d|].
      * split; [discriminate|].
        intros [k [n [[Heq | Hin] Hn]]].
        -- injection Heq as <- <-. congruence.
        -- destruct IH as [_ IH].
           assert (H : Some d = None) by (apply IH; now exists k, n).
           discriminate.
      * split; [|reflexivity]. intros _.
        destruct IH as [IH _]. destruct (IH eq_refl) as [k [n [Hin Hn]]].
        exists k, n. split; [now right | assumption].
    + split; [|reflexivity]. intros _. exists k0, n0.
      split; [now left | assumption].
Qed.

(** Each key of the loaded data holds the table read under its sheet
    name. *)
Lemma read_sheets_some (read_excel : excel_reader)
    (keys : list (string * string)) (d : list (string * Table.t)) :
  NoDup (map fst keys) ->
  read_sheets read_excel keys = Some d ->
  forall k n, In (k, n) keys -> read_excel n = Some (item d k).
Proof.
  revert d. induction keys as [|[k0 n0] rest IH]; intros d Hnd Hread k n Hin;
    [destruct Hin|].
  simpl in *. inversion Hnd as [|? ? Hk0 Hrest]; subst.
  destruct (read_excel n0) as [tb|] eqn:E; [|discriminate].
  destruct (read_sheets read_excel rest) as [d'|] eqn:Er; [|discriminate].
  injection Hread as <-. unfold item. simpl.
  destruct Hin as [Heq | Hin].
  - injection Heq as <- <-. now rewrite String.eqb_refl.
  - destruct (String.eqb k0 k) eqn:Ek.
    + apply String.eqb_eq in Ek. subst k0. exfalso. apply Hk0.
      apply in_map_iff. now exists (k, n).
    + apply (IH d' Hrest eq_refl k n Hin).
Qed.

Lemma data_keys_NoDup : NoDup (map fst data_keys).
Proof.
  simpl. repeat (constructor; [simpl; intuition discriminate|]). constructor.
Qed.

(** Whatever is loaded, the two indexability cards show the same number. *)
Lemma indexability_cards_equal (audit : option excel_reader) (csv : csv_file) :
  shown "Non-Indexable Pages" (app_layout audit csv)
  = shown "Missing Canonical" (app_layout audit csv).
Proof.
  unfold app_layout.
  destruct (load_audit_data audit), (load_csv_data csv); reflexivity.
Qed.

(** What the cards of the first two sections show once the data loaded. *)
Lemma cards_of_loaded_data (audit : option excel_reader) (csv : csv_file)
    (d : list (string * Table.t)) (cols : list string) :
  load_audit_data audit = Some d -> load_csv_data csv = Some cols ->
  shown "Total URLs" (app_layout audit csv)
  = Some (Table.len (item d "html_pages")) /\
  shown "Non-Indexable Pages" (app_layout audit csv)
  = Some (Table.len (item d "missing_canonical")) /\
  shown "Missing Canonical" (app_layout audit csv)
  = Some (Table.len (item d "missing_canonical")).
Proof.
  intros Hd Hc. unfold app_layout. rewrite Hd, Hc. repeat split.
Qed.

End Cards.

(** ** The workbook does not read the indexability status *)

Module Untouched.

Section Rewriting.

Variable g : Row -> Row.

Lemma drop_duplicates_map (seen : list text) (df : DataFrame) :
  (forall r, address (g r) = address r) ->
  Frame.drop_duplicates_from (@address _ _) text_eqb seen (map g df)
  = map g (Frame.drop_duplicates_from (@address _ _) text_eqb seen df).
Proof.
  intros Hg. revert seen.
  induction df as [|r rest IH]; intros seen; simpl; [reflexivity|].
  rewrite Hg. destruct (Frame.seen_in text_eqb (address r) seen).
  - apply IH.
  - simpl. now rewrite IH.
Qed.

Lemma select_map (mask : Row -> bool) (df : DataFrame) :
  (forall r, mask (g r) = mask r) ->
  select mask (map g df) = map g (select mask df).
Proof.
  intros Hg. unfold select.
  induction df as [|r rest IH]; simpl; [reflexivity|].
  rewrite Hg. destruct (mask r); simpl; now rewrite IH.
Qed.

Lemma project_map (cols : list Col.column) (df : DataFrame) :
  (forall r, line_of cols (g r) = line_of cols r) ->
  project cols (map g df) = project cols df.
Proof.
  intros Hg. unfold project. f_equal. rewrite map_map.
  apply map_ext. exact Hg.
Qed.

Lemma sheet_map (cols : list Col.column) (mask : Row -> bool) (df : DataFrame) :
  (forall r, mask (g r) = mask r) ->
  (forall r, line_of cols (g r) = line_of cols r) ->
  project cols (select mask (map g df)) = project cols (select mask df).
Proof.
  intros Hm Hl. rewrite (select_map _ _ Hm). now apply project_map.
Qed.

End Rewriting.

(** Rewriting the indexability status of every row of the export changes
    no sheet of the workbook. *)
Lemma report_sheets_untouched (pn : string -> float) (pd : string -> stamp)
    (f : text -> text) (now : Z) (raw : RawFrame) :
  report_sheets now
    (cleaned_df pn pd (map (with_indexability_status f) raw))
    (cleaned_html_df pn pd (map (with_indexability_status f) raw))
  = report_sheets now (cleaned_df pn pd raw) (cleaned_html_df pn pd raw).
Proof.
  rewrite !Cleaning.cleaned_df_eq, !Cleaning.cleaned_html_df_eq.
  assert (Hmap : map (clean_row pn pd) (map (with_indexability_status f) raw)
                 = map (with_indexability_status f) (map (clean_row pn pd) raw)).
  { rewrite !map_map. apply map_ext. reflexivity. }
  rewrite Hmap. unfold Frame.drop_duplicates.
  rewrite drop_duplicates_map by reflexivity.
  unfold report_sheets.
  rewrite !sheet_map by reflexivity.
  reflexivity.
Qed.

End Untouched.

Lemma filter_shorter {A : Type} (p : A -> bool) (l : list A) :
  (exists x, In x l /\ p x = false) ->
  List.length (filter p l) < List.length l.
Proof.
  intros [x [Hx Hp]]. induction l as [|y rest IH]; [destruct Hx|].
  simpl. pose proof (filter_length_le p rest) as Hle.
  destruct Hx as [-> | Hx].
  - rewrite Hp. lia.
  - specialize (IH Hx). destruct (p y); simpl; lia.
Qed.

(** C9.  The cards [Non-Indexable Pages] and [Missing Canonical] both
    show the number of lines of one table, the one the dashboard reads from
    the sheet [Missing Canonical]; whatever is loaded they show the same
    number.  The result of the non-indexable rule is used for neither:
    rewriting the indexability status of every row of the export leaves
    every sheet of the workbook [generate_report] writes as it was. *)
Theorem indexability_cards_show_missing_canonical
    (read_excel : Dashboard.excel_reader) (csv : Dashboard.csv_file)
    (d : list (string * Table.t)) (cols : list string) :
  Dashboard.load_audit_data (Some read_excel) = Some d ->
  Dashboard.load_csv_data csv = Some cols ->
  (exists tb,
     read_excel "Missing Canonical" = Some tb /\
     Dashboard.shown "Non-Indexable Pages"
       (Dashboard.app_layout (Some read_excel) csv) = Some (Table.len tb) /\
     Dashboard.shown "Missing Canonical"
       (Dashboard.app_layout (Some read_excel) csv) = Some (Table.len tb)) /\
  (forall audit' csv',
     Dashboard.shown "Non-Indexable Pages" (Dashboard.app_layout audit' csv')
     = Dashboard.shown "Missing Canonical" (Dashboard.app_layout audit' csv')) /\
  (forall (pn : string -> float) (pd : string -> stamp) (f : text -> text)
          (now : Z) (raw : RawFrame),
     report_sheets now
       (cleaned_df pn pd (map (with_indexability_status f) raw))
       (cleaned_html_df pn pd (map (with_indexability_status f) raw))
     = report_sheets now (cleaned_df pn pd raw) (cleaned_html_df pn pd raw)).
Proof.
  intros Hd Hc. split; [|split].
  - exists (Dashboard.item d "missing_canonical").
    destruct (Cards.cards_of_loaded_data _ _ _ _ Hd Hc) as [_ [Hn Hm]].
    split; [|split; assumption].
    apply (Cards.read_sheets_some _ _ _ Cards.data_keys_NoDup Hd).
    simpl. tauto.
  - apply Cards.indexability_cards_equal.
  - intros. apply Untouched.report_sheets_untouched.
Qed.

(** A workbook with two pages without a canonical link, read back as it
    was written: both cards show 2. *)
Lemma indexability_cards_witness :
  exists tb,
    Examples.reading
      (report_sheets 0
         (cleaned_df Examples.no_number Examples.epoch
            [Examples.row_a; Examples.row_b])
         (cleaned_html_df Examples.no_number Examples.epoch
            [Examples.row_a; Examples.row_b]))
      "Missing Canonical" = Some tb /\
    Dashboard.shown "Non-Indexable Pages"
      (Dashboard.app_layout
         (Some (Examples.reading
                  (report_sheets 0
                     (cleaned_df Examples.no_number Examples.epoch
                        [Examples.row_a; Examples.row_b])
                     (cleaned_html_df Examples.no_number Examples.epoch
                        [Examples.row_a; Examples.row_b]))))
         Examples.full_export) = Some (Table.len tb) /\
    Dashboard.shown "Missing Canonical"
      (Dashboard.app_layout
         (Some (Examples.reading
                  (report_sheets 0
                     (cleaned_df Examples.no_number Examples.epoch
                        [Examples.row_a; Examples.row_b])
                     (cleaned_html_df Examples.no_number Examples.epoch
                        [Examples.row_a; Examples.row_b]))))
         Examples.full_export) = Some (Table.len tb).
Proof.
  eapply (indexability_cards_show_missing_canonical
            (Examples.reading
               (report_sheets 0
                  (cleaned_df Examples.no_number Examples.epoch
                     [Examples.row_a; Examples.row_b])
                  (cleaned_html_df Examples.no_number Examples.epoch
                     [Examples.row_a; Examples.row_b])))
            Examples.full_export); reflexivity.
Defined.

(** C10, as the code has it.  The card [Total URLs] shows the number of
    lines of the table the dashboard reads from the sheet [HTML Pages].
    That sheet is written with one line per row of the HTML frame, where
    the audit prints the number of rows of the frame of all rows.  When no
    two rows of the export share an address and one of them is not HTML,
    the sheet has strictly fewer lines than the audit counted, and so the
    card shows strictly less when the table read has no more lines than
    the sheet written. *)
Theorem total_urls_card_counts_html_rows
    (pn : string -> float) (pd : string -> stamp) (now : Z) (raw : RawFrame)
    (read_excel : Dashboard.excel_reader) (csv : Dashboard.csv_file)
    (d : list (string * Table.t)) (cols : list string) :
  Dashboard.load_audit_data (Some read_excel) = Some d ->
  Dashboard.load_csv_data csv = Some cols ->
  (exists tb,
     read_excel "HTML Pages" = Some tb /\
     Dashboard.shown "Total URLs" (Dashboard.app_layout (Some read_excel) csv)
     = Some (Table.len tb)) /\
  option_map Table.len
    (sheet "HTML Pages"
       (report_sheets now (cleaned_df pn pd raw) (cleaned_html_df pn pd raw)))
  = Some (List.length (cleaned_html_df pn pd raw)) /\
  printed_count "Total URLs" (analyze_crawl_overview (cleaned_df pn pd raw))
  = Some (List.length (cleaned_df pn pd raw)) /\
  (unique_addresses raw ->
   (exists r, In r raw /\ is_html (clean_row pn pd r) = false) ->
   List.length (cleaned_html_df pn pd raw) < List.length (cleaned_df pn pd raw) /\
   (forall tb,
      read_excel "HTML Pages" = Some tb ->
      Table.len tb <= List.length (cleaned_html_df pn pd raw) ->
      exists n,
        Dashboard.shown "Total URLs"
          (Dashboard.app_layout (Some read_excel) csv) = Some n /\
        n < List.length (cleaned_df pn pd raw))).
Proof.
  intros Hd Hc.
  destruct (Cards.cards_of_loaded_data _ _ _ _ Hd Hc) as [Htotal _].
  assert (Hread : read_excel "HTML Pages"
                  = Some (Dashboard.item d "html_pages")).
  { apply (Cards.read_sheets_some _ _ _ Cards.data_keys_NoDup Hd).
    simpl. tauto. }
  split; [|split; [|split]].
  - exists (Dashboard.item d "html_pages"). now split.
  - simpl. unfold Table.len. simpl. now rewrite length_map.
  - reflexivity.
  - intros Huniq [r [Hr Hnot]].
    assert (Hlt : List.length (cleaned_html_df pn pd raw)
                  < List.length (cleaned_df pn pd raw)).
    { rewrite (Cleaning.df_of_unique _ _ _ Huniq), Cleaning.cleaned_html_df_eq.
      apply filter_shorter. exists (clean_row pn pd r).
      split; [now apply in_map | assumption]. }
    split; [exact Hlt|].
    intros tb Htb Hle. rewrite Hread in Htb. injection Htb as <-.
    exists (Table.len (Dashboard.item d "html_pages")).
    split; [exact Htotal | lia].
Qed.

Lemma total_urls_witness :
  List.length
    (cleaned_html_df Examples.no_number Examples.epoch
       [Examples.home; Examples.logo])
  < List.length
      (cleaned_df Examples.no_number Examples.epoch
         [Examples.home; Examples.logo]).
Proof.
  eapply (total_urls_card_counts_html_rows
            Examples.no_number Examples.epoch 0
            [Examples.home; Examples.logo]
            (Examples.reading
               (report_sheets 0
                  (cleaned_df Examples.no_number Examples.epoch
                     [Examples.home; Examples.logo])
                  (cleaned_html_df Examples.no_number Examples.epoch
                     [Examples.home; Examples.logo])))
            Examples.full_export).
  - reflexivity.
  - reflexivity.
  - unfold unique_addresses. simpl.
    repeat constructor; simpl; intuition discriminate.
  - exists Examples.logo. split; [simpl; tauto | reflexivity].
Defined.

(** C10, as stated, fails.  An export lists one address twice, first as
    an HTML page and then as an image: it contains a row that is not HTML,
    [drop_duplicates] keeps the first of the two, and the sheet
    [HTML Pages] has one line where the audit counted one URL.  And an
    export that lists the home page twice and an image once: the frame of
    all rows holds the image, the HTML frame keeps both rows of the home
    page, and the sheet has two lines where the audit counted two. *)
Lemma total_urls_not_smaller :
  (let raw := [Examples.home; Examples.home_as_image] in
   let df := cleaned_df Examples.no_number Examples.epoch raw in
   let html_df := cleaned_html_df Examples.no_number Examples.epoch raw in
   (exists r, In r raw /\
              is_html (clean_row Examples.no_number Examples.epoch r) = false) /\
   option_map Table.len (sheet "HTML Pages" (report_sheets 0 df html_df))
   = Some 1 /\
   printed_count "Total URLs" (analyze_crawl_overview df) = Some 1) /\
  (let raw := [Examples.home; Examples.home_again; Examples.logo] in
   let df := cleaned_df Examples.no_number Examples.epoch raw in
   let html_df := cleaned_html_df Examples.no_number Examples.epoch raw in
   (exists r, In r df /\ is_html r = false) /\
   option_map Table.len (sheet "HTML Pages" (report_sheets 0 df html_df))
   = Some 2 /\
   printed_count "Total URLs" (analyze_crawl_overview df) = Some 2).
Proof.
  split.
  - split; [|split; reflexivity].
    exists Examples.home_as_image. split; [simpl; tauto | reflexivity].
  - split; [|split; reflexivity].
    exists (clean_row Examples.no_number Examples.epoch Examples.logo).
    split; [simpl; tauto | reflexivity].
Qed.

(** * Further properties of the code *)

(** ** [clean_data]: the frame of all rows *)

Lemma find_own_key {A K : Type} (key : A -> K) (eqb : K -> K -> bool)
    (l : list A) (r : A) :
  (forall a b, eqb a b = true <-> a = b) ->
  NoDup (map key l) -> In r l ->
  find (fun x => eqb (key x) (key r)) l = Some r.
Proof.
  intros Heq. induction l as [|x rest IH]; intros Hnd Hin; [destruct Hin|].
  simpl in *. inversion Hnd as [|? ? Hx Hrest]; subst.
  destruct Hin as [-> | Hin].
  - assert (E : eqb (key r) (key r) = true) by now apply Heq.
    now rewrite E.
  - destruct (eqb (key x) (key r)) eqn:E.
    + apply Heq in E. exfalso. apply Hx. rewrite E. now apply in_map.
    + now apply IH.
Qed.

(** X1.  After [clean_data] the frame of all rows has one row per address;
    under every address it holds the first row loaded under it, cleaned;
    each of its rows is such a first row; and no row is added. *)
Theorem all_rows_frame_holds_first_row_of_each_address
    (pn : string -> float) (pd : string -> stamp) (raw : RawFrame) :
  unique_addresses (cleaned_df pn pd raw) /\
  (forall a : text,
     first_with a (cleaned_df pn pd raw)
     = option_map (clean_row pn pd) (first_with a raw)) /\
  (forall r : Row,
     In r (cleaned_df pn pd raw) ->
     exists r0, In r0 raw /\ first_with (address r0) raw = Some r0 /\
                r = clean_row pn pd r0) /\
  List.length (cleaned_df pn pd raw) <= List.length raw.
Proof.
  split; [apply Cleaning.df_unique|].
  split; [apply Cleaning.df_keeps_first|].
  split; [|apply Cleaning.df_length].
  intros r Hr.
  pose proof (find_own_key (@address _ _) text_eqb _ r text_eqb_eq
                (Cleaning.df_unique pn pd raw) Hr) as Hfind.
  change (first_with (address r) (cleaned_df pn pd raw) = Some r) in Hfind.
  rewrite Cleaning.df_keeps_first in Hfind.
  destruct (first_with (address r) raw) as [r0|] eqn:E; [|discriminate].
  simpl in Hfind. injection Hfind as Hr0. subst r.
  unfold first_with in E. pose proof (find_some _ _ E) as [Hin _].
  exists r0. split; [assumption|]. split; [exact E | reflexivity].
Qed.

Lemma all_rows_frame_witness :
  exists r0,
    In r0 [Examples.home; Examples.home_again] /\
    first_with (address r0) [Examples.home; Examples.home_again] = Some r0 /\
    clean_row Examples.no_number Examples.epoch Examples.home
    = clean_row Examples.no_number Examples.epoch r0.
Proof.
  apply (all_rows_frame_holds_first_row_of_each_address
           Examples.no_number Examples.epoch
           [Examples.home; Examples.home_again]).
  simpl. left. reflexivity.
Defined.

(** ** [clean_data]: the HTML frame *)

(** X2.  Every HTML row of the frame of all rows is a row of the HTML
    frame.  When no two rows of the export share an address the HTML frame
    is exactly the HTML rows of the frame of all rows, and it is that whole
    frame when every row is HTML. *)
Theorem html_frame_of_an_export_without_repeats
    (pn : string -> float) (pd : string -> stamp) (raw : RawFrame) :
  incl (select is_html (cleaned_df pn pd raw)) (cleaned_html_df pn pd raw) /\
  (unique_addresses raw ->
   cleaned_html_df pn pd raw = select is_html (cleaned_df pn pd raw) /\
   incl (cleaned_html_df pn pd raw) (cleaned_df pn pd raw) /\
   ((forall r, In r raw -> is_html (clean_row pn pd r) = true) ->
    cleaned_html_df pn pd raw = cleaned_df pn pd raw)).
Proof.
  split.
  - intros r Hr. apply Results.select_In in Hr. destruct Hr as [Hr Hh].
    rewrite Cleaning.cleaned_html_df_eq. apply Results.select_In.
    split; [|assumption].
    rewrite Cleaning.cleaned_df_eq in Hr.
    now apply (DropDuplicates.kept _ _ text_eqb_eq) in Hr.
  - intros Hu. rewrite (Cleaning.df_of_unique _ _ _ Hu).
    rewrite Cleaning.cleaned_html_df_eq.
    split; [reflexivity|]. split.
    + intros r Hr. apply Results.select_In in Hr. tauto.
    + intros Hall. unfold select. apply forallb_filter_id.
      apply forallb_forall. intros r Hr. apply in_map_iff in Hr.
      destruct Hr as [r0 [<- Hr0]]. now apply Hall.
Qed.

Lemma html_frame_witness :
  cleaned_html_df Examples.no_number Examples.epoch
    [Examples.home; Examples.logo]
  = select is_html
      (cleaned_df Examples.no_number Examples.epoch
         [Examples.home; Examples.logo]).
Proof.
  apply (html_frame_of_an_export_without_repeats
           Examples.no_number Examples.epoch [Examples.home; Examples.logo]).
  unfold unique_addresses. simpl.
  repeat constructor; simpl; intuition discriminate.
Defined.

(** ** [clean_data] and the masks: filled and coerced cells *)

(** X3.  A row loaded without a title length is given the length 0 and is
    therefore always reported with a suboptimal title, in the artifact
    (when the row is HTML) and in the sheet (when the row is kept); the
    same holds for a missing meta description length. *)
Theorem missing_lengths_are_reported
    (pn : string -> float) (pd : string -> stamp) (raw : RawFrame)
    (r0 : RawRow) :
  In r0 raw ->
  (PrimFloat.is_nan (title_1_length r0) = true ->
   title_1_length (clean_row pn pd r0) = 0%float /\
   (is_html (clean_row pn pd r0) = true ->
    In (clean_row pn pd r0) (suboptimal_titles (cleaned_html_df pn pd raw))) /\
   (In (clean_row pn pd r0) (cleaned_df pn pd raw) ->
    In (clean_row pn pd r0)
       (select is_suboptimal_title (cleaned_df pn pd raw)))) /\
  (PrimFloat.is_nan (meta_description_1_length r0) = true ->
   meta_description_1_length (clean_row pn pd r0) = 0%float /\
   (is_html (clean_row pn pd r0) = true ->
    In (clean_row pn pd r0) (suboptimal_metas (cleaned_html_df pn pd raw))) /\
   (In (clean_row pn pd r0) (cleaned_df pn pd raw) ->
    In (clean_row pn pd r0)
       (select is_suboptimal_meta (cleaned_df pn pd raw)))).
Proof.
  intros Hin. split; intros Hnan.
  - assert (Hlen : title_1_length (clean_row pn pd r0) = 0%float).
    { simpl. unfold fillna. now rewrite Hnan. }
    assert (Hmask : is_suboptimal_title (clean_row pn pd r0) = true).
    { unfold is_suboptimal_title. rewrite Hlen. reflexivity. }
    split; [exact Hlen|]. split.
    + intros Hh. unfold suboptimal_titles. apply Results.select_In.
      split; [|exact Hmask].
      rewrite Cleaning.cleaned_html_df_eq. apply Results.select_In.
      split; [now apply in_map | exact Hh].
    + intros Hk. apply Results.select_In. now split.
  - assert (Hlen : meta_description_1_length (clean_row pn pd r0) = 0%float).
    { simpl. unfold fillna. now rewrite Hnan. }
    assert (Hmask : is_suboptimal_meta (clean_row pn pd r0) = true).
    { unfold is_suboptimal_meta. rewrite Hlen. reflexivity. }
    split; [exact Hlen|]. split.
    + intros Hh. unfold suboptimal_metas. apply Results.select_In.
      split; [|exact Hmask].
      rewrite Cleaning.cleaned_html_df_eq. apply Results.select_In.
      split; [now apply in_map | exact Hh].
    + intros Hk. apply Results.select_In. now split.
Qed.

Lemma missing_lengths_witness :
  In (clean_row Examples.no_number Examples.epoch Examples.logo)
     (select is_suboptimal_title
        (cleaned_df Examples.no_number Examples.epoch [Examples.logo])).
Proof.
  apply (missing_lengths_are_reported
           Examples.no_number Examples.epoch [Examples.logo] Examples.logo).
  - simpl. left. reflexivity.
  - reflexivity.
  - simpl. left. reflexivity.
Defined.

(** ** The 4xx band *)

Lemma status_codes_checked :
  forallb (fun n =>
             Bool.eqb (between 400 499 (chars n))
                      ((400 <=? n) && (n <=? 499))%Z)
          (upto 1000)
  = true.
Proof. vm_compute. reflexivity. Qed.

(** X5.  The sheet [4xx Errors] takes a row exactly when its status code
    lies between 400 and 499, both ends included: for every whole code
    from 0 to 999 the mask agrees with that comparison. *)
Theorem client_error_band (df : DataFrame) (r : Row) (n : Z) :
  (0 <= n <= 999)%Z -> status_code r = chars n ->
  (In r (select is_4xx df) <-> In r df /\ (400 <= n <= 499)%Z).
Proof.
  intros Hn Hs. rewrite Results.select_In. unfold is_4xx. rewrite Hs.
  pose proof status_codes_checked as Hall.
  rewrite forallb_forall in Hall.
  assert (Hin : In n (upto 1000)).
  { unfold upto. apply in_map_iff. exists (Z.to_nat n).
    split; [lia|]. apply in_seq. lia. }
  apply Hall, Bool.eqb_prop in Hin. rewrite Hin.
  rewrite andb_true_iff, !Z.leb_le. tauto.
Qed.

Lemma client_error_band_witness :
  In (clean_row Examples.no_number Examples.epoch Examples.row_b)
     (select is_4xx [clean_row Examples.no_number Examples.epoch Examples.row_b])
  <-> In (clean_row Examples.no_number Examples.epoch Examples.row_b)
         [clean_row Examples.no_number Examples.epoch Examples.row_b]
      /\ (400 <= 404 <= 499)%Z.
Proof.
  apply (client_error_band
           [clean_row Examples.no_number Examples.epoch Examples.row_b]
           (clean_row Examples.no_number Examples.epoch Examples.row_b) 404).
  - lia.
  - reflexivity.
Defined.

(** ** [str.contains]: plain substrings *)

Module Substring.

Lemma prefix_app (p s : string) :
  String.prefix p s = true <-> exists post, s = (p ++ post)%string.
Proof.
  revert s. induction p as [|a p IH]; intros s; simpl.
  - destruct s; split; intros _; try reflexivity; eexists; reflexivity.
  - destruct s as [|b s]; simpl.
    + split; [discriminate | intros [post H]; discriminate].
    + destruct (ascii_dec a b) as [-> | Hab].
      * rewrite IH. split; intros [post H]; exists post; congruence.
      * split; [discriminate | intros [post H]; congruence].
Qed.

Lemma contains_app (pat s : string) :
  contains pat s = true <-> exists pre post, s = (pre ++ pat ++ post)%string.
Proof.
  induction s as [|c rest IH].
  - change (contains pat EmptyString)
      with (String.prefix pat EmptyString || false).
    rewrite orb_false_r, prefix_app. split.
    + intros [post H]. exists EmptyString, post. exact H.
    + intros [pre [post H]]. destruct pre; [|discriminate].
      exists post. exact H.
  - change (contains pat (String c rest))
      with (String.prefix pat (String c rest) || contains pat rest).
    rewrite orb_true_iff, prefix_app, IH. split.
    + intros [[post H] | [pre [post H]]].
      * exists EmptyString, post. exact H.
      * exists (String c pre), post. simpl. now rewrite H.
    + intros [pre [post H]]. destruct pre as [|c' pre].
      * left. exists post. exact H.
      * right. simpl in H. injection H as _ H. exists pre, post. exact H.
Qed.

End Substring.

(** X6.  A row is HTML exactly when its content type has [text/html]
    somewhere in it, so [text/html; charset=utf-8] counts and a missing
    content type does not; a row is non-indexable exactly when its
    indexability status has [Non-Indexable] somewhere in it.  The match is
    on the characters as they are: [TEXT/HTML] is not HTML. *)
Theorem html_and_non_indexable_rows_by_substring (r : Row) :
  (is_html r = true <->
   exists pre post,
     content_type r = Some (pre ++ "text/html" ++ post)%string) /\
  (is_non_indexable r = true <->
   exists pre post,
     indexability_status r = Some (pre ++ "Non-Indexable" ++ post)%string) /\
  (content_type r = Some "TEXT/HTML" -> is_html r = false) /\
  (content_type r = None -> is_html r = false).
Proof.
  unfold is_html, is_non_indexable, str_contains. repeat split.
  - destruct (content_type r) as [s|]; [|discriminate].
    intros H. apply Substring.contains_app in H.
    destruct H as [pre [post H]]. exists pre, post. now rewrite H.
  - intros [pre [post H]]. rewrite H. apply Substring.contains_app.
    now exists pre, post.
  - destruct (indexability_status r) as [s|]; [|discriminate].
    intros H. apply Substring.contains_app in H.
    destruct H as [pre [post H]]. exists pre, post. now rewrite H.
  - intros [pre [post H]]. rewrite H. apply Substring.contains_app.
    now exists pre, post.
  - intros H. rewrite H. reflexivity.
  - intros H. rewrite H. reflexivity.
Qed.

Lemma html_by_substring_witness :
  is_html (clean_row Examples.no_number Examples.epoch Examples.home_again)
  = true.
Proof.
  apply (html_and_non_indexable_rows_by_substring
           (clean_row Examples.no_number Examples.epoch Examples.home_again)).
  exists EmptyString, "; charset=utf-8". reflexivity.
Defined.

(** ** Sorted output *)

Module Ordered.

Import Frame.

Section Total.

Context {A : Type}.
Variable le : A -> A -> bool.
Hypothesis le_total : forall x y, le x y = false -> le y x = true.

Lemma insert_by_sorted (x : A) (l : list A) :
  Sorted (fun a b => le a b = true) l ->
  Sorted (fun a b => le a b = true) (insert_by le x l).
Proof.
  induction l as [|y rest IH]; intros Hs; simpl.
  - repeat constructor.
  - destruct (le x y) eqn:E.
    + constructor; [assumption | now constructor].
    + inversion Hs as [|? ? Hrest Hhd]; subst.
      constructor; [now apply IH|].
      destruct rest as [|z rest']; simpl.
      * constructor. now apply le_total.
      * destruct (le x z); constructor.
        -- now apply le_total.
        -- now inversion Hhd.
Qed.

Lemma sort_by_sorted (l : list A) :
  Sorted (fun a b => le a b = true) (sort_by le l).
Proof.
  induction l as [|x rest IH]; simpl; [constructor|].
  now apply insert_by_sorted.
Qed.

End Total.

End Ordered.

(** ** Repeated titles *)

Module Titles.

Import Frame.

Lemma text_is_eqb (t : string) (c : text) : text_is t c = text_eqb c (Some t).
Proof. destruct c; reflexivity. Qed.

Lemma occurrences_titled (t : string) (df : DataFrame) :
  occurrences (@title_1 _ _) text_eqb (Some t) df = List.length (titled t df).
Proof.
  unfold occurrences, titled.
  rewrite (filter_ext _ (fun r => text_is t (title_1 r))); [reflexivity|].
  intros r. symmetry. apply text_is_eqb.
Qed.

Lemma filter_of_filter {A : Type} (p q : A -> bool) (l : list A) :
  (forall x, p x = true -> q x = true) ->
  filter p (filter q l) = filter p l.
Proof.
  intros H. induction l as [|x rest IH]; simpl; [reflexivity|].
  destruct (q x) eqn:Eq; simpl.
  - destruct (p x); now rewrite IH.
  - destruct (p x) eqn:Ep; [|exact IH].
    apply H in Ep. congruence.
Qed.

(** Among the rows whose title is repeated, those titled [t] are all the
    rows titled [t], as soon as there are two of them. *)
Lemma titled_among_repeated (t : string) (df : DataFrame) :
  2 <= List.length (titled t df) ->
  titled t (duplicated_all (@title_1 _ _) text_eqb df) = titled t df.
Proof.
  intros Hlen. unfold titled at 1, duplicated_all. apply filter_of_filter.
  intros r Hr. unfold text_is in Hr.
  destruct (title_1 r) as [s|] eqn:E; [|discriminate].
  apply String.eqb_eq in Hr. subst s.
  rewrite occurrences_titled. apply Nat.ltb_lt. lia.
Qed.

Lemma every_key_kept (k : string) (l : list string) :
  In k l -> In k (drop_duplicates (fun x => x) String.eqb l).
Proof.
  intros Hin.
  pose proof (DropDuplicates.first_kept (fun x : string => x) String.eqb
                String.eqb_eq l k) as Hfind.
  destruct (find (fun r => String.eqb r k) l) as [x|] eqn:E.
  - apply find_some in Hfind. destruct Hfind as [Hx Hk].
    apply String.eqb_eq in Hk. now subst.
  - exfalso. apply (find_none _ _ E) in Hin.
    rewrite String.eqb_refl in Hin. discriminate.
Qed.

Lemma key_of_a_row {A : Type} (key : A -> text) (rows : list A) (k : string) :
  In k (flat_map (fun r => match key r with Some k => [k] | None => [] end) rows)
  <-> exists r, In r rows /\ key r = Some k.
Proof.
  rewrite in_flat_map. split; intros [r [Hr Hk]]; exists r; split; try assumption.
  - destruct (key r) as [k'|]; simpl in Hk; [|contradiction].
    destruct Hk as [-> | []]. reflexivity.
  - rewrite Hk. now left.
Qed.

End Titles.

(** X7.  The duplicate-titles table has one entry per title carried by two
    rows or more: the entry lists the addresses of all the rows with that
    title, in frame order.  A title carried by one row and a missing title
    have no entry, no title has two entries, and the entries come in the
    order of their titles. *)
Theorem duplicate_titles_groups (df : DataFrame) (t : string)
    (addrs : list text) :
  (In (t, addrs) (dup_titles df) <->
   addrs = map (@address _ _) (titled t df) /\ 2 <= List.length addrs) /\
  NoDup (map fst (dup_titles df)) /\
  Sorted (fun a b => String.leb a b = true) (map fst (dup_titles df)).
Proof.
  assert (Hkeys : map fst (dup_titles df)
                  = Frame.sort_by String.leb
                      (Frame.drop_duplicates (fun k => k) String.eqb
                         (flat_map
                            (fun r => match title_1 r with
                                      | Some k => [k] | None => [] end)
                            (Frame.duplicated_all (@title_1 _ _) text_eqb df)))).
  { unfold dup_titles, Frame.groupby_list. rewrite map_map. simpl.
    apply map_id. }
  split; [|split].
  - unfold dup_titles, Frame.groupby_list. rewrite in_map_iff. split.
    + intros [k [Hpair Hk]]. injection Hpair as -> <-.
      apply Sorting.sort_by_In in Hk.
      apply (DropDuplicates.kept _ _ String.eqb_eq) in Hk.
      destruct Hk as [Hk _]. apply Titles.key_of_a_row in Hk.
      destruct Hk as [r [Hr Ht]].
      unfold Frame.duplicated_all in Hr. apply filter_In in Hr.
      destruct Hr as [_ Hocc]. rewrite Ht in Hocc.
      rewrite Titles.occurrences_titled in Hocc. apply Nat.ltb_lt in Hocc.
      fold (titled t (Frame.duplicated_all (@title_1 _ _) text_eqb df)).
      rewrite Titles.titled_among_repeated by exact Hocc.
      split; [reflexivity|]. rewrite length_map. exact Hocc.
    + intros [-> Hlen]. rewrite length_map in Hlen.
      exists t. split.
      * fold (titled t (Frame.duplicated_all (@title_1 _ _) text_eqb df)).
        now rewrite Titles.titled_among_repeated.
      * apply Sorting.sort_by_In, Titles.every_key_kept, Titles.key_of_a_row.
        destruct (titled t df) as [|r rest] eqn:E; [simpl in Hlen; lia|].
        assert (Hr : In r (titled t df)) by (rewrite E; now left).
        unfold titled in Hr. apply filter_In in Hr. destruct Hr as [Hr Ht].
        assert (Htitle : title_1 r = Some t).
        { unfold text_is in Ht. destruct (title_1 r) as [s|]; [|discriminate].
          apply String.eqb_eq in Ht. now subst. }
        exists r. split; [|exact Htitle].
        unfold Frame.duplicated_all. apply filter_In. split; [assumption|].
        rewrite Htitle, Titles.occurrences_titled, E. apply Nat.ltb_lt. exact Hlen.
  - rewrite Hkeys.
    apply (Permutation_NoDup (Permutation_sym (Sorting.sort_by_perm _ _))).
    pose proof (DropDuplicates.keys_NoDup (fun k : string => k) String.eqb
                  String.eqb_eq) as Hnd.
    specialize (Hnd (flat_map
                       (fun r => match title_1 r with
                                 | Some k => [k] | None => [] end)
                       (Frame.duplicated_all (@title_1 _ _) text_eqb df))).
    now rewrite map_id in Hnd.
  - rewrite Hkeys. apply Ordered.sort_by_sorted.
    intros x y Hxy. destruct (String.leb_total x y) as [H | H]; congruence.
Qed.

Lemma duplicate_titles_witness :
  In ("Home", [Some "https://example.com/"; Some "https://example.com/index"])
     (dup_titles [Examples.titled_page "https://example.com/" "Home";
                  Examples.titled_page "https://example.com/about" "About";
                  Examples.titled_page "https://example.com/index" "Home"]).
Proof.
  apply (duplicate_titles_groups
           [Examples.titled_page "https://example.com/" "Home";
            Examples.titled_page "https://example.com/about" "About";
            Examples.titled_page "https://example.com/index" "Home"]).
  split; [reflexivity | simpl; lia].
Defined.

(** ** The order of [sort_values] *)

Module FloatOrder.

Lemma compare_antisym (x y : spec_float) :
  SFcompare y x = option_map CompOpp (SFcompare x y).
Proof.
  destruct x as [sx | sx | | sx mx ex], y as [sy | sy | | sy my ey];
    simpl; try reflexivity;
    try (destruct sx; reflexivity); try (destruct sy; reflexivity);
    try (destruct sx, sy; reflexivity).
  destruct sx, sy; simpl; try reflexivity;
    rewrite (Z.compare_antisym ex ey);
    destruct (ex ?= ey)%Z; simpl; try reflexivity;
    pose proof (Pos.compare_cont_antisym mx my Eq) as H; simpl in H;
    rewrite <- H; destruct (Pos.compare_cont Eq mx my); reflexivity.
Qed.

Lemma is_nan_of_spec (x : float) :
  Prim2SF x = S754_nan -> PrimFloat.is_nan x = true.
Proof.
  intros H. unfold PrimFloat.is_nan. rewrite eqb_spec, H. reflexivity.
Qed.

Lemma compare_numbers (x y : float) :
  PrimFloat.is_nan x = false -> PrimFloat.is_nan y = false ->
  exists c, SFcompare (Prim2SF x) (Prim2SF y) = Some c.
Proof.
  intros Hx Hy.
  destruct (Prim2SF x) as [sx | sx | | sx mx ex] eqn:Ex;
    try (apply is_nan_of_spec in Ex; congruence);
    destruct (Prim2SF y) as [sy | sy | | sy my ey] eqn:Ey;
    try (apply is_nan_of_spec in Ey; congruence);
    simpl; eexists; reflexivity.
Qed.

Lemma leb_total (x y : float) :
  PrimFloat.is_nan x = false -> PrimFloat.is_nan y = false ->
  PrimFloat.leb x y = false -> PrimFloat.leb y x = true.
Proof.
  intros Hx Hy. rewrite !leb_spec. unfold SFleb.
  rewrite (compare_antisym (Prim2SF x) (Prim2SF y)).
  destruct (compare_numbers x y Hx Hy) as [c ->]. simpl.
  destruct c; simpl; congruence.
Qed.

Lemma key_le_total (asc : bool) (x y : float) :
  Frame.key_le asc x y = false -> Frame.key_le asc y x = true.
Proof.
  unfold Frame.key_le.
  destruct (PrimFloat.is_nan y) eqn:Hy; [discriminate|].
  destruct (PrimFloat.is_nan x) eqn:Hx; [reflexivity|].
  destruct asc; now apply leb_total.
Qed.

Lemma key_le_in_order (asc : bool) (x y : float) :
  Frame.key_le asc x y = true <-> in_order asc x y.
Proof.
  unfold Frame.key_le, in_order.
  destruct (PrimFloat.is_nan y) eqn:Hy; [tauto|].
  destruct (PrimFloat.is_nan x) eqn:Hx.
  - split; [discriminate|]. intros [H | [H _]]; discriminate.
  - destruct asc.
    + split; [intros H; right; now repeat split|].
      intros [H | [_ [_ H]]]; [discriminate | exact H].
    + split; [intros H; right; now repeat split|].
      intros [H | [_ [_ H]]]; [discriminate | exact H].
Qed.

End FloatOrder.

Lemma Sorted_map_inv {A B : Type} (f : A -> B) (R : B -> B -> Prop)
    (l : list A) :
  Sorted R (map f l) -> Sorted (fun a b => R (f a) (f b)) l.
Proof.
  induction l as [|x rest IH]; intros H; [constructor|].
  simpl in H. inversion H as [|? ? Hrest Hhd]; subst.
  constructor; [now apply IH|].
  destruct rest as [|y rest']; constructor. now inversion Hhd.
Qed.

Lemma Sorted_weaken {A : Type} (R R' : A -> A -> Prop) (l : list A) :
  (forall a b, R a b -> R' a b) -> Sorted R l -> Sorted R' l.
Proof.
  intros Himp H. induction H as [|x l Hl IH Hhd]; constructor; [assumption|].
  destruct Hhd; constructor. now apply Himp.
Qed.

(** A table sorted on a numeric column it projects lists the rows it was
    given, each as often as it was given, in the order of that column. *)
Lemma sorted_projection (cols : list Col.column) (by_ : Col.column)
    (key : Row -> float) (asc : bool) (rows : DataFrame) :
  (forall r, Table.number_at by_ cols (line_of cols r) = key r) ->
  exists listed,
    Permutation listed rows /\
    Table.body (Table.sort_values by_ asc (project cols rows))
    = map (line_of cols) listed /\
    Sorted (fun a b => in_order asc (key a) (key b)) listed.
Proof.
  intros Hkey.
  pose proof (Sorting.sort_by_perm
                (fun a b => Frame.key_le asc (Table.number_at by_ cols a)
                                            (Table.number_at by_ cols b))
                (map (line_of cols) rows)) as Hperm.
  destruct (Permutation_map_inv _ _ Hperm) as [listed [Hbody Hl]].
  exists listed. split; [now apply Permutation_sym|]. split; [exact Hbody|].
  pose proof (Ordered.sort_by_sorted
                (fun a b => Frame.key_le asc (Table.number_at by_ cols a)
                                            (Table.number_at by_ cols b))
                (fun a b => FloatOrder.key_le_total asc _ _)
                (map (line_of cols) rows)) as Hs.
  simpl in Hbody. unfold project in Hbody. simpl in Hbody.
  rewrite Hbody in Hs. apply Sorted_map_inv in Hs.
  apply (Sorted_weaken _ _ _ (fun a b H => H)) in Hs.
  revert Hs. apply Sorted_weaken. intros a b H.
  rewrite !Hkey in H. now apply FloatOrder.key_le_in_order.
Qed.

(** X8.  The near-duplicates artifact lists the HTML rows with at least
    one near duplicate, each once per row, by decreasing similarity, the
    rows without a similarity last.  The low-inlinks artifact lists the
    rows with fewer than five inlinks by increasing link score, the rows
    without a link score last. *)
Theorem sorted_artifacts_list_their_rows_in_order (df : DataFrame) :
  (exists listed,
     Permutation listed (select is_near_duplicate df) /\
     Table.body (near_dups df)
     = map (line_of [Col.address; Col.closest_similarity_match]) listed /\
     Sorted (fun a b => in_order false (closest_similarity_match a)
                                       (closest_similarity_match b)) listed) /\
  (exists listed,
     Permutation listed (select is_low_inlinks df) /\
     Table.body (low_inlinks df)
     = map (line_of [Col.address; Col.inlinks; Col.link_score]) listed /\
     Sorted (fun a b => in_order true (link_score a) (link_score b)) listed).
Proof.
  split.
  - apply (sorted_projection [Col.address; Col.closest_similarity_match]
             Col.closest_similarity_match (@closest_similarity_match _ _) false).
    intros r. reflexivity.
  - apply (sorted_projection [Col.address; Col.inlinks; Col.link_score]
             Col.link_score (@link_score _ _) true).
    intros r. reflexivity.
Qed.

(** ** Outdated pages and the clock *)

Lemma filter_length_mono {A : Type} (p q : A -> bool) (l : list A) :
  (forall x, p x = true -> q x = true) ->
  List.length (filter p l) <= List.length (filter q l).
Proof.
  intros H. induction l as [|x rest IH]; simpl; [lia|].
  destruct (p x) eqn:Ep.
  - rewrite (H x Ep). simpl. lia.
  - destruct (q x); simpl; lia.
Qed.

(** X10.  A page is outdated when it was last modified strictly more than
    365 days before the clock reading: exactly 365 days is not outdated,
    one nanosecond more is.  A page outdated at one reading is outdated at
    every later one, so the sheet [Outdated Pages], whose clock is read
    after the artifact's, holds every line of the artifact. *)
Theorem outdated_pages_grow_with_the_clock
    (t1 t2 : Z) (df html_df : DataFrame) (r : Row) :
  (t1 <= t2)%Z ->
  (last_modified r = Some (t1 - one_year)%Z -> is_outdated t1 r = false) /\
  (last_modified r = Some (t1 - one_year - 1)%Z -> is_outdated t1 r = true) /\
  (is_outdated t1 r = true -> is_outdated t2 r = true) /\
  (exists tb,
     sheet "Outdated Pages" (report_sheets t2 df html_df) = Some tb /\
     incl (Table.body (outdated t1 df)) (Table.body tb) /\
     Table.len (outdated t1 df) <= Table.len tb).
Proof.
  intros Hle.
  assert (Hmono : forall x, is_outdated t1 x = true -> is_outdated t2 x = true).
  { intros x. unfold is_outdated, stamp_lt.
    destruct (last_modified x) as [m|]; [|discriminate].
    rewrite !Z.ltb_lt. lia. }
  split; [|split; [|split]].
  - intros H. unfold is_outdated. rewrite H. simpl. apply Z.ltb_ge. lia.
  - intros H. unfold is_outdated. rewrite H. simpl. apply Z.ltb_lt. lia.
  - apply Hmono.
  - eexists. split; [reflexivity|]. split.
    + intros line Hline. simpl in *. apply in_map_iff in Hline.
      destruct Hline as [x [Hl Hx]]. apply in_map_iff. exists x.
      split; [assumption|]. apply Results.select_In in Hx.
      apply Results.select_In. split; [tauto|]. apply Hmono. tauto.
    + unfold Table.len. simpl. rewrite !length_map.
      now apply filter_length_mono.
Qed.

Lemma outdated_pages_witness :
  is_outdated one_year
    (clean_row Examples.no_number Examples.epoch Examples.dated) = false.
Proof.
  apply (outdated_pages_grow_with_the_clock one_year (one_year + 1) [] []
           (clean_row Examples.no_number Examples.epoch Examples.dated)).
  - lia.
  - reflexivity.
Defined.

(** ** [load_audit_data], [load_csv_data] and the layout *)

Module Loading.

Import Dashboard.

Lemma has_column_In (name : string) (columns : list string) :
  has_column name columns = true <-> In name columns.
Proof.
  unfold has_column. rewrite existsb_exists. split.
  - intros [x [Hx Heq]]. apply String.eqb_eq in Heq. now subst.
  - intros H. exists name. split; [assumption | apply String.eqb_refl].
Qed.

Lemma load_audit_data_none (audit : option excel_reader) :
  load_audit_data audit = None <->
  audit = None \/
  exists read_excel k n,
    audit = Some read_excel /\ In (k, n) data_keys /\ read_excel n = None.
Proof.
  destruct audit as [read_excel|]; unfold load_audit_data.
  - rewrite Cards.read_sheets_none. split.
    + intros [k [n [Hin Hn]]]. right. now exists read_excel, k, n.
    + intros [H | [r [k [n [Hr [Hin Hn]]]]]]; [discriminate|].
      injection Hr as <-. now exists k, n.
  - split; [now left | reflexivity].
Qed.

Lemma load_csv_data_none (csv : csv_file) :
  load_csv_data csv = None <->
  csv = NoCsv \/ csv = CsvRaises \/
  exists columns,
    csv = Csv columns /\
    (~ In "title 1 length" columns \/
     ~ In "meta description 1 length" columns).
Proof.
  destruct csv as [| |columns]; simpl.
  - split; [now left | reflexivity].
  - split; [right; now left | reflexivity].
  - destruct (has_column "title 1 length" columns) eqn:Et;
      destruct (has_column "meta description 1 length" columns) eqn:Em;
      simpl.
    + apply has_column_In in Et. apply has_column_In in Em.
      split; [discriminate|].
      intros [H | [H | [c [Hc [Hn | Hn]]]]]; try discriminate;
        injection Hc as <-; contradiction.
    + split; [|reflexivity]. intros _. right. right. exists columns.
      split; [reflexivity|]. right. intros H.
      apply has_column_In in H. congruence.
    + split; [|reflexivity]. intros _. right. right. exists columns.
      split; [reflexivity|]. left. intros H.
      apply has_column_In in H. congruence.
    + split; [|reflexivity]. intros _. right. right. exists columns.
      split; [reflexivity|]. left. intros H.
      apply has_column_In in H. congruence.
Qed.

End Loading.

(** X11.  The dashboard shows its error page exactly when the workbook is
    not there, or one of the fourteen reads of a sheet raises, or the
    export is not there, or reading it raises, or it lacks one of the two
    length columns.  Otherwise each key of [data] holds the table read
    under the sheet name of that key. *)
Theorem error_page_exactly_when_data_is_missing
    (audit : option Dashboard.excel_reader) (csv : Dashboard.csv_file) :
  (Dashboard.app_layout audit csv = Dashboard.MissingDataFiles <->
   (audit = None \/
    exists read_excel k n,
      audit = Some read_excel /\ In (k, n) Dashboard.data_keys /\
      read_excel n = None) \/
   (csv = Dashboard.NoCsv \/ csv = Dashboard.CsvRaises \/
    exists columns,
      csv = Dashboard.Csv columns /\
      (~ In "title 1 length" columns \/
       ~ In "meta description 1 length" columns))) /\
  (forall read_excel d,
     audit = Some read_excel -> Dashboard.load_audit_data audit = Some d ->
     forall k n, In (k, n) Dashboard.data_keys ->
       read_excel n = Some (Dashboard.item d k)).
Proof.
  split.
  - rewrite <- Loading.load_audit_data_none, <- Loading.load_csv_data_none.
    unfold Dashboard.app_layout.
    destruct (Dashboard.load_audit_data audit) as [d|];
      destruct (Dashboard.load_csv_data csv) as [cols|].
    + split; [discriminate | intros [H | H]; discriminate].
    + split; [intros _; now right | reflexivity].
    + split; [intros _; now left | reflexivity].
    + split; [intros _; now left | reflexivity].
  - intros read_excel d -> Hload. simpl in Hload.
    apply (Cards.read_sheets_some _ _ _ Cards.data_keys_NoDup Hload).
Qed.

Lemma error_page_witness :
  exists d,
    Dashboard.load_audit_data
      (Some (Examples.reading (report_sheets 0 [] []))) = Some d /\
    Examples.reading (report_sheets 0 [] []) "Slow Pages"
    = Some (Dashboard.item d "slow_pages").
Proof.
  eexists. split; [reflexivity|].
  apply (proj2 (error_page_exactly_when_data_is_missing
                  (Some (Examples.reading (report_sheets 0 [] [])))
                  Dashboard.NoCsv)
               (Examples.reading (report_sheets 0 [] [])) _ eq_refl eq_refl
               "slow_pages" "Slow Pages").
  simpl. tauto.
Defined.

(** ** The workbook and the per-rule files *)

(** X13.  For the rules over all rows the workbook repeats the per-rule
    file: the sheets [Missing Canonical] and [HTTP 1.1 Pages] are the
    files' tables; [Slow Pages], [Deep Pages] and [Large Pages] are the
    files' tables without their last column; and [Low Inlinks] holds the
    lines of the file, which the file alone sorts. *)
Theorem sheets_over_all_rows_repeat_the_artifacts
    (now : Z) (df html_df : DataFrame) :
  let sheets := report_sheets now df html_df in
  sheet "Missing Canonical" sheets = Some (missing_canonical df) /\
  sheet "HTTP 1.1 Pages" sheets = Some (old_http df) /\
  option_map Table.body (sheet "Slow Pages" sheets)
  = Some (map (firstn 2) (Table.body (slow_pages df))) /\
  option_map Table.body (sheet "Deep Pages" sheets)
  = Some (map (firstn 2) (Table.body (deep_pages df))) /\
  option_map Table.body (sheet "Large Pages" sheets)
  = Some (map (firstn 2) (Table.body (large_pages df))) /\
  (exists tb,
     sheet "Low Inlinks" sheets = Some tb /\
     Table.header tb = Table.header (low_inlinks df) /\
     Permutation (Table.body (low_inlinks df)) (Table.body tb)).
Proof.
  simpl. repeat split; try (now rewrite map_map).
  eexists. split; [reflexivity|]. split; [reflexivity|].
  simpl. apply Sorting.sort_by_perm.
Qed.

(** ** The callback of the collapsible sections *)

(** X14.  A click on a section header flips that section and leaves the
    five others as they are, so a second click on the same header restores
    the state; without a trigger, or when the first trigger is none of the
    six headers, the state is returned unchanged. *)
Theorem toggle_collapse_flips_the_clicked_section
    (triggered : list string) (st : Dashboard.collapse_state) :
  Dashboard.toggle_collapse triggered (Dashboard.toggle_collapse triggered st)
  = st /\
  Dashboard.toggle_collapse [] st = st /\
  (forall prop_id rest,
     ~ In (Dashboard.before_dot prop_id)
          ["crawl-header"; "indexability-header"; "onpage-header";
           "content-header"; "architecture-header"; "performance-header"] ->
     Dashboard.toggle_collapse (prop_id :: rest) st = st) /\
  (forall rest,
     let '(Dashboard.mkCollapse crawl index onpage content arch perf) := st in
     Dashboard.toggle_collapse ("crawl-header.n_clicks" :: rest) st
     = Dashboard.mkCollapse (negb crawl) index onpage content arch perf /\
     Dashboard.toggle_collapse ("indexability-header.n_clicks" :: rest) st
     = Dashboard.mkCollapse crawl (negb index) onpage content arch perf /\
     Dashboard.toggle_collapse ("onpage-header.n_clicks" :: rest) st
     = Dashboard.mkCollapse crawl index (negb onpage) content arch perf /\
     Dashboard.toggle_collapse ("content-header.n_clicks" :: rest) st
     = Dashboard.mkCollapse crawl index onpage (negb content) arch perf /\
     Dashboard.toggle_collapse ("architecture-header.n_clicks" :: rest) st
     = Dashboard.mkCollapse crawl index onpage content (negb arch) perf /\
     Dashboard.toggle_collapse ("performance-header.n_clicks" :: rest) st
     = Dashboard.mkCollapse crawl index onpage content arch (negb perf)).
Proof.
  split; [|split; [reflexivity|split]].
  - destruct triggered as [|prop_id rest]; [reflexivity|].
    unfold Dashboard.toggle_collapse.
    repeat match goal with
    | |- context [String.eqb ?a ?b] =>
        let E := fresh "E" in
        destruct (String.eqb a b) eqn:E;
        [destruct st; simpl; now rewrite negb_involutive|]
    end.
    reflexivity.
  - intros prop_id rest Hnot. unfold Dashboard.toggle_collapse.
    repeat match goal with
    | |- context [String.eqb ?a ?b] =>
        let E := fresh "E" in
        destruct (String.eqb a b) eqn:E;
        [apply String.eqb_eq in E; exfalso; apply Hnot; rewrite E;
         simpl; tauto|]
    end.
    reflexivity.
  - intros rest. destruct st. repeat split.
Qed.

Lemma toggle_collapse_witness :
  Dashboard.toggle_collapse ["table-4xx.data"]
    (Dashboard.mkCollapse true true true true true true)
  = Dashboard.mkCollapse true true true true true true.
Proof.
  apply (toggle_collapse_flips_the_clicked_section
           [] (Dashboard.mkCollapse true true true true true true)).
  simpl. intuition discriminate.
Defined.

(** ** No row is made up *)


